(** * airtime_analyzer / cloud_storage_uploader.py

    A shallow embedding of [CloudStorageUploader] (constructor, [enabled],
    [upload_obj]) together with the parts of the Python runtime the class
    relies on: [str] slicing and searching, [os.path.basename],
    [os.path.splitext], [uuid.uuid4] with its canonical text form, a
    dictionary heap, a file system and the boto S3 client seen as an oracle. *)

From Stdlib Require Import ZArith NArith Ascii String List Lia.
From Stdlib Require Import Numbers.DecimalString.
From stdpp Require Import base option list strings gmap.

Local Open Scope string_scope.
Local Open Scope list_scope.
Local Open Scope Z_scope.

(** ** Python [str] primitives *)

Module PyStr.

(** The characters of a string, in order. *)
Definition chars (s : string) : list ascii := list_ascii_of_string s.

Fixpoint str_take (n : nat) (s : string) : string :=
  match n, s with
  | S n', String a s' => String a (str_take n' s')
  | _, _ => EmptyString
  end.

Fixpoint str_drop (n : nat) (s : string) : string :=
  match n, s with
  | S n', String _ s' => str_drop n' s'
  | _, _ => s
  end.

(** Normalisation of a slice bound: a negative bound counts from the end,
    and every bound is clamped to [0 .. len(s)]. *)
Definition slice_index (i : Z) (s : string) : nat :=
  let n := Z.of_nat (String.length s) in
  Z.to_nat (if i <? 0 then Z.max 0 (n + i) else Z.min i n).

(** [s[i:]] *)
Definition slice_from (i : Z) (s : string) : string :=
  str_drop (slice_index i s) s.

(** [s[:j]] *)
Definition slice_to (j : Z) (s : string) : string :=
  str_take (slice_index j s) s.

(** [s[i:j]] *)
Definition slice (i j : Z) (s : string) : string :=
  let a := slice_index i s in
  let b := slice_index j s in
  str_take (b - a) (str_drop a s).

(** [s.rfind(c)] for a one-character [c]: the highest index holding [c],
    or [-1]. *)
Fixpoint rfind (c : ascii) (s : string) : Z :=
  match s with
  | EmptyString => -1
  | String a s' =>
      let r := rfind c s' in
      if 0 <=? r then r + 1
      else if Ascii.eqb a c then 0 else -1
  end.

(** [s.replace(old, new)] for one-character [old] and [new]. *)
Fixpoint replace (old new : ascii) (s : string) : string :=
  match s with
  | EmptyString => EmptyString
  | String a s' =>
      String (if Ascii.eqb a old then new else a) (replace old new s')
  end.

(** Number of occurrences of a character: [s.count(c)]. *)
Fixpoint count (c : ascii) (s : string) : nat :=
  match s with
  | EmptyString => O
  | String a s' => ((if Ascii.eqb a c then 1 else 0) + count c s')%nat
  end.

(** [s.endswith(t)] *)
Definition endswith (s t : string) : bool :=
  String.eqb (str_drop (String.length s - String.length t) s) t
  && (String.length t <=? String.length s)%nat.

(** [s.startswith(t)] *)
Definition startswith (s t : string) : bool :=
  String.eqb (str_take (String.length t) s) t.

End PyStr.

(** ** [os.path] (posixpath) *)

Module OsPath.
Import PyStr.

(** [posixpath.basename]: [i = p.rfind('/') + 1; return p[i:]]. *)
Definition basename (p : string) : string :=
  let i := rfind "/" p + 1 in
  slice_from i p.

(** The [while] loop of [genericpath._splitext]: scan
    [filenameIndex .. dotIndex - 1] for a character that is not the
    extension separator; [Some] is the early [return] inside the loop,
    [None] is falling out of it. [n] bounds the number of iterations. *)
Fixpoint splitext_loop (n : nat) (p : string) (extsep : ascii)
         (filenameIndex dotIndex : Z) : option (string * string) :=
  match n with
  | O => None
  | S n' =>
      if filenameIndex <? dotIndex then
        if negb (String.eqb (slice filenameIndex (filenameIndex + 1) p)
                            (String extsep EmptyString))
        then Some (slice_to dotIndex p, slice_from dotIndex p)
        else splitext_loop n' p extsep (filenameIndex + 1) dotIndex
      else None
  end.

(** [genericpath._splitext(p, sep, altsep=None, extsep)]. *)
Definition _splitext (p : string) (sep extsep : ascii) : string * string :=
  let sepIndex := rfind sep p in
  let dotIndex := rfind extsep p in
  let found :=
    if sepIndex <? dotIndex then
      let filenameIndex := sepIndex + 1 in
      splitext_loop (Z.to_nat (dotIndex - filenameIndex)) p extsep
                    filenameIndex dotIndex
    else None in
  match found with
  | Some r => r
  | None => (p, slice_to 0 p)
  end.

(** [posixpath.splitext]. *)
Definition splitext (p : string) : string * string := _splitext p "/" ".".

End OsPath.

(** ** [uuid] *)

Module Uuid.
Import PyStr.
Local Open Scope N_scope.

(** One lowercase hexadecimal digit. *)
Definition hex_digit (d : N) : ascii :=
  match d with
  | 0 => "0" | 1 => "1" | 2 => "2" | 3 => "3"
  | 4 => "4" | 5 => "5" | 6 => "6" | 7 => "7"
  | 8 => "8" | 9 => "9" | 10 => "a" | 11 => "b"
  | 12 => "c" | 13 => "d" | 14 => "e" | _ => "f"
  end%char.

(** The [width] low hexadecimal digits of [n], most significant first. *)
Fixpoint hex_fixed (width : nat) (n : N) : string :=
  match width with
  | O => EmptyString
  | S w => hex_fixed w (n / 16) +:+ String (hex_digit (n mod 16)) EmptyString
  end.

(** ['%032x' % n]: at least 32 digits, zero padded, more when [n] needs
    them. *)
Definition format_032x (n : N) : string :=
  hex_fixed (Nat.max 32 (N.to_nat (N.log2 n / 4) + 1)) n.

(** [UUID(bytes=..., version=4)]: the 128-bit value with the RFC 4122
    variant and the version number written over six of its bits.
    [raw] is the integer read from the 16 random bytes. *)
Definition UUID_v4 (raw : N) : N :=
  let int := raw mod 2 ^ 128 in
  let int := N.ldiff int (N.shiftl 0xc000 48) in
  let int := N.lor int (N.shiftl 0x8000 48) in
  let int := N.ldiff int (N.shiftl 0xf000 64) in
  let int := N.lor int (N.shiftl 4 76) in
  int.

(** [UUID.__str__]. *)
Definition UUID_str (int : N) : string :=
  let hex := format_032x int in
  slice_to 8 hex +:+ "-" +:+ slice 8 12 hex +:+ "-" +:+ slice 12 16 hex
    +:+ "-" +:+ slice 16 20 hex +:+ "-" +:+ slice_from 20 hex.

(** The characters a canonical UUID text is made of. *)
Definition uuid_char (c : ascii) : Prop :=
  In c (PyStr.chars "0123456789abcdef-").

End Uuid.

(** ** Values held by the metadata dictionary *)

Inductive pyval : Type :=
| VStr (s : string)
| VInt (n : Z).

(** [str(v)], which is what a [%s] conversion inserts. *)
Definition py_str (v : pyval) : string :=
  match v with
  | VStr s => s
  | VInt n => NilZero.string_of_int (Z.to_int n)
  end.

(** ** Exceptions *)

(** The exceptions a call can end with. [KeyError], [OSError], [IOError],
    [NoSectionError] and [NoOptionError] are raised by the Python runtime;
    [StoreError] stands for whatever the boto client raises
    ([S3ResponseError], a socket error, ...). The last four are the error
    kinds the written specification names; no statement of the module
    raises them. *)
Inductive exn : Type :=
| KeyError (key : string)
| OSError (path : string)
| IOError (path : string)
| NoSectionError (section : string)
| NoOptionError (option section : string)
| StoreError (detail : string)
| InvalidRequestError
| UploadError (cause : exn)
| NotFoundError
| ConfigurationError.

(** ** The world a call runs in *)

(** Addresses of dictionary objects. *)
Definition loc := positive.

(** What the process did to the outside, in program order. *)
Inductive event : Type :=
| S3Connect (api_key api_key_secret host : string)
| S3GetBucket (bucket : string)
| S3PutObject (bucket key : string) (meta : list (string * string))
              (payload : list Byte.byte)
| LogInfo (message : string).

(** The answers of the object store: [None] lets the operation through,
    [Some e] makes it raise [e]. *)
Record s3_service : Type := {
  on_connect : string -> string -> string -> option exn;
  on_get_bucket : string -> option exn;
  on_put : string -> string -> option exn
}.

(** [heap]: the dictionary objects, by address, so that two references to
    one dictionary see the same updates. [fs]: the files, path to content.
    [fs_protected]: the paths the process may not unlink. [s3]: the store.
    [entropy], [drawn]: the random source as the sequence of its 128-bit
    draws and the number of draws made so far. [trace]: the events so far. *)
Record world : Type := {
  heap : gmap loc (gmap string pyval);
  fs : gmap string (list Byte.byte);
  fs_protected : gset string;
  s3 : s3_service;
  entropy : nat -> N;
  drawn : nat;
  trace : list event
}.

Definition set_heap (h : gmap loc (gmap string pyval)) (w : world) : world :=
  {| heap := h; fs := fs w; fs_protected := fs_protected w; s3 := s3 w;
     entropy := entropy w; drawn := drawn w; trace := trace w |}.

Definition set_fs (f : gmap string (list Byte.byte)) (w : world) : world :=
  {| heap := heap w; fs := f; fs_protected := fs_protected w; s3 := s3 w;
     entropy := entropy w; drawn := drawn w; trace := trace w |}.

Definition set_drawn (n : nat) (w : world) : world :=
  {| heap := heap w; fs := fs w; fs_protected := fs_protected w; s3 := s3 w;
     entropy := entropy w; drawn := n; trace := trace w |}.

Definition emit (e : event) (w : world) : world :=
  {| heap := heap w; fs := fs w; fs_protected := fs_protected w; s3 := s3 w;
     entropy := entropy w; drawn := drawn w; trace := trace w ++ [e] |}.

(** ** Computations that read and write the world and may raise *)

Definition M (A : Type) : Type := world -> (exn + A) * world.

Definition ret {A} (a : A) : M A := fun w => (inr a, w).

Definition raise {A} (e : exn) : M A := fun w => (inl e, w).

Definition bind {A B} (m : M A) (k : A -> M B) : M B :=
  fun w =>
    match m w with
    | (inr a, w') => k a w'
    | (inl e, w') => (inl e, w')
    end.

(** [try: body  except <handled>: handler]. *)
Definition try_except (body : M unit) (handled : exn -> bool)
           (handler : M unit) : M unit :=
  fun w =>
    match body w with
    | (inl e, w') => if handled e then handler w' else (inl e, w')
    | r => r
    end.

Declare Scope py_scope.
Delimit Scope py_scope with py.
Notation "x <- c1 ;; c2" := (bind c1 (fun x => c2))
  (at level 100, c1 at next level, right associativity) : py_scope.
Notation "c1 ;;; c2" := (bind c1 (fun _ => c2))
  (at level 100, right associativity) : py_scope.
Local Open Scope py_scope.

Definition is_OSError (e : exn) : bool :=
  match e with OSError _ => true | _ => false end.

(** *** Primitive operations *)

(** [d[k]]: [KeyError] when [k] is not in the dictionary. An address with
    no dictionary behind it does not occur in a run; it is treated as an
    empty dictionary on reading and ignored on writing. *)
Definition dict_getitem (d : loc) (k : string) : M pyval :=
  fun w =>
    match heap w !! d with
    | Some m =>
        match m !! k with
        | Some v => (inr v, w)
        | None => (inl (KeyError k), w)
        end
    | None => (inl (KeyError k), w)
    end.

(** [d[k] = v] *)
Definition dict_setitem (d : loc) (k : string) (v : pyval) : M unit :=
  fun w =>
    match heap w !! d with
    | Some m => (inr tt, set_heap (<[d := <[k := v]> m]> (heap w)) w)
    | None => (inr tt, w)
    end.

(** [str(uuid.uuid4())]: one 128-bit draw from the random source. *)
Definition uuid4_str : M string :=
  fun w =>
    (inr (Uuid.UUID_str (Uuid.UUID_v4 (entropy w (drawn w)))),
     set_drawn (S (drawn w)) w).

(** [os.path.getsize(path)] *)
Definition getsize (path : string) : M Z :=
  fun w =>
    match fs w !! path with
    | Some content => (inr (Z.of_nat (length content)), w)
    | None => (inl (OSError path), w)
    end.

(** [os.remove(path)]: fails on a missing file and on one the process may
    not unlink. *)
Definition remove (path : string) : M unit :=
  fun w =>
    match fs w !! path with
    | Some _ =>
        if decide (path ∈ fs_protected w) then (inl (OSError path), w)
        else (inr tt, set_fs (delete path (fs w)) w)
    | None => (inl (OSError path), w)
    end.

(** [logging.info(message)] *)
Definition logging_info (message : string) : M unit :=
  fun w => (inr tt, emit (LogInfo message) w).

(** *** The boto client *)

Record connection : Type := { conn_host : string }.
Record bucket : Type := { bucket_name : string }.

(** [S3Connection(api_key, api_key_secret, host=host)] *)
Definition S3Connection (api_key api_key_secret host : string) : M connection :=
  fun w =>
    let w' := emit (S3Connect api_key api_key_secret host) w in
    match on_connect (s3 w) api_key api_key_secret host with
    | Some e => (inl e, w')
    | None => (inr {| conn_host := host |}, w')
    end.

(** [conn.get_bucket(name)] *)
Definition get_bucket (conn : connection) (name : string) : M bucket :=
  fun w =>
    let w' := emit (S3GetBucket name) w in
    match on_get_bucket (s3 w) name with
    | Some e => (inl e, w')
    | None => (inr {| bucket_name := name |}, w')
    end.

(** A [Key] of a bucket: its name and the metadata attached to it. *)
Record Key : Type := {
  key_bucket : bucket;
  key_key : string;
  key_metadata : list (string * string)
}.

(** [key.set_contents_from_filename(path)]: opens the file, then sends it. *)
Definition set_contents_from_filename (key : Key) (path : string) : M unit :=
  fun w =>
    match fs w !! path with
    | None => (inl (IOError path), w)
    | Some content =>
        let w' := emit (S3PutObject (bucket_name (key_bucket key)) (key_key key)
                                    (key_metadata key) content) w in
        match on_put (s3 w) (bucket_name (key_bucket key)) (key_key key) with
        | Some e => (inl e, w')
        | None => (inr tt, w')
        end
    end.

(** ** Configuration *)

(** A parsed configuration file: section name to option name to value. *)
Definition config := gmap string (gmap string string).

(** [config.get(section, option)] *)
Definition config_get (c : config) (section option : string) : exn + string :=
  match c !! section with
  | None => inl (NoSectionError section)
  | Some opts =>
      match opts !! option with
      | None => inl (NoOptionError option section)
      | Some v => inr v
      end
  end.

(** ** The class *)

Definition STORAGE_BACKEND_FILE : string := "file".

Record CloudStorageUploader : Type := {
  _storage_backend : string;
  _host : string;
  _bucket : string;
  _api_key : string;
  _api_key_secret : string
}.

(** [CloudStorageUploader.__init__(self, config)]; the result is the
    initialised object, or the exception of the first failing lookup. *)
Definition __init__ (cfg : config) : exn + CloudStorageUploader :=
  match config_get cfg "current_backend" "storage_backend" with
  | inl e => inl e
  | inr CLOUD_STORAGE_CONFIG_SECTION =>
      if String.eqb CLOUD_STORAGE_CONFIG_SECTION STORAGE_BACKEND_FILE then
        inr {| _storage_backend := CLOUD_STORAGE_CONFIG_SECTION;
               _host := ""; _bucket := ""; _api_key := "";
               _api_key_secret := "" |}
      else
        match config_get cfg CLOUD_STORAGE_CONFIG_SECTION "host" with
        | inl e => inl e
        | inr host =>
        match config_get cfg CLOUD_STORAGE_CONFIG_SECTION "bucket" with
        | inl e => inl e
        | inr bucket =>
        match config_get cfg CLOUD_STORAGE_CONFIG_SECTION "api_key" with
        | inl e => inl e
        | inr api_key =>
        match config_get cfg CLOUD_STORAGE_CONFIG_SECTION "api_key_secret" with
        | inl e => inl e
        | inr api_key_secret =>
            inr {| _storage_backend := CLOUD_STORAGE_CONFIG_SECTION;
                   _host := host; _bucket := bucket; _api_key := api_key;
                   _api_key_secret := api_key_secret |}
        end end end end
  end.

(** [CloudStorageUploader.enabled(self)] *)
Definition enabled (self : CloudStorageUploader) : M bool :=
  if String.eqb (_storage_backend self) "file" then ret false else ret true.

(** ["%s/%s/%s_%s%s" % (a, b, c, d, e)] *)
Definition format_resource_id (a : pyval) (b c d e : string) : string :=
  py_str a +:+ "/" +:+ b +:+ "/" +:+ c +:+ "_" +:+ d +:+ e.

(** [CloudStorageUploader.upload_obj(self, audio_file_path, metadata)];
    [metadata] is the address of the caller's dictionary. *)
Definition upload_obj (self : CloudStorageUploader) (audio_file_path : string)
           (metadata : loc) : M loc :=
  let file_base_name := OsPath.basename audio_file_path in
  let '(file_name, extension) := OsPath.splitext file_base_name in
  let file_name := PyStr.replace " " "-" file_name in
  unique_id <- uuid4_str ;;
  let unique_id_prefix := PyStr.slice_from (-2) unique_id in
  file_prefix <- dict_getitem metadata "file_prefix" ;;
  let resource_id :=
    format_resource_id file_prefix unique_id_prefix file_name unique_id
                       extension in
  conn <- S3Connection (_api_key self) (_api_key_secret self) (_host self) ;;
  bucket <- get_bucket conn (_bucket self) ;;
  let key := {| key_bucket := bucket; key_key := ""; key_metadata := [] |} in
  let key := {| key_bucket := key_bucket key; key_key := resource_id;
                key_metadata := key_metadata key |} in
  let key := {| key_bucket := key_bucket key; key_key := key_key key;
                key_metadata := key_metadata key
                                  ++ [("filename", file_base_name)] |} in
  set_contents_from_filename key audio_file_path ;;;
  filesize <- getsize audio_file_path ;;
  dict_setitem metadata "filesize" (VInt filesize) ;;;
  try_except (remove audio_file_path) is_OSError
    (logging_info ("Could not remove " +:+ audio_file_path
                   +:+ " from organize directory")) ;;;
  dict_setitem metadata "filename" (VStr file_base_name) ;;;
  dict_setitem metadata "resource_id" (VStr resource_id) ;;;
  dict_setitem metadata "storage_backend" (VStr (_storage_backend self)) ;;;
  ret metadata.

(** ** Derived notions used to state the properties *)

(** Lines 65-82 of [upload_obj] as a function of the path, the value found
    under [file_prefix] and the text of the fresh UUID. *)
Definition resource_id_of (audio_file_path : string) (file_prefix : pyval)
           (unique_id : string) : string :=
  let file_base_name := OsPath.basename audio_file_path in
  let '(file_name, extension) := OsPath.splitext file_base_name in
  let file_name := PyStr.replace " " "-" file_name in
  let unique_id_prefix := PyStr.slice_from (-2) unique_id in
  format_resource_id file_prefix unique_id_prefix file_name unique_id
                     extension.

(** The UUID text the next call of [uuid4_str] returns in [w]. *)
Definition next_unique_id (w : world) : string :=
  Uuid.UUID_str (Uuid.UUID_v4 (entropy w (drawn w))).

(** Events that reach the object store. *)
Definition is_store_event (e : event) : bool :=
  match e with
  | S3Connect _ _ _ | S3GetBucket _ | S3PutObject _ _ _ _ => true
  | LogInfo _ => false
  end.

Definition store_calls (w : world) : list event :=
  filter (fun e => is_store_event e = true) (trace w).

(** The dictionary after the four assignments of lines 92-104. *)
Definition augmented (m : gmap string pyval) (filesize : Z)
           (filename resource_id storage_backend : string) : gmap string pyval :=
  <["storage_backend" := VStr storage_backend]>
    (<["resource_id" := VStr resource_id]>
       (<["filename" := VStr filename]>
          (<["filesize" := VInt filesize]> m))).

(** The world a call that runs to its [return] leaves behind, given the
    dictionary [m] found at [metadata], the value [fp] under [file_prefix]
    and the bytes [content] of the file. *)
Definition uploaded (self : CloudStorageUploader) (audio_file_path : string)
           (metadata : loc) (m : gmap string pyval) (fp : pyval)
           (content : list Byte.byte) (w : world) : world :=
  let rid := resource_id_of audio_file_path fp (next_unique_id w) in
  let base := OsPath.basename audio_file_path in
  let kept := bool_decide (audio_file_path ∈ fs_protected w) in
  {| heap := <[metadata := augmented m (Z.of_nat (length content)) base rid
                                     (_storage_backend self)]> (heap w);
     fs := if kept then fs w else delete audio_file_path (fs w);
     fs_protected := fs_protected w;
     s3 := s3 w;
     entropy := entropy w;
     drawn := S (drawn w);
     trace := trace w
              ++ [S3Connect (_api_key self) (_api_key_secret self) (_host self);
                  S3GetBucket (_bucket self);
                  S3PutObject (_bucket self) rid [("filename", base)] content]
              ++ (if kept
                  then [LogInfo ("Could not remove " +:+ audio_file_path
                                 +:+ " from organize directory")]
                  else []) |}.

(** The reading of "extension" as the part of the base filename from its
    last dot onward (empty when there is no dot). *)
Definition extension_from_last_dot (file_base_name : string) : string :=
  let i := PyStr.rfind "." file_base_name in
  if 0 <=? i then PyStr.slice_from i file_base_name else "".

(** The store makes the call fail with [e]: at the connection, at the
    bucket lookup, or at the write of a file that could be opened. *)
Definition store_fails (self : CloudStorageUploader) (audio_file_path : string)
           (fp : pyval) (w : world) (e : exn) : Prop :=
  let connect :=
    on_connect (s3 w) (_api_key self) (_api_key_secret self) (_host self) in
  let lookup := on_get_bucket (s3 w) (_bucket self) in
  let put :=
    on_put (s3 w) (_bucket self)
           (resource_id_of audio_file_path fp (next_unique_id w)) in
  connect = Some e
  \/ (connect = None /\ lookup = Some e)
  \/ (connect = None /\ lookup = None
      /\ is_Some (fs w !! audio_file_path) /\ put = Some e).

(** The four keys [upload_obj] assigns. *)
Definition assigned_keys : list string :=
  ["filesize"; "filename"; "resource_id"; "storage_backend"].

(** ** Sample configurations, stores and worlds *)

Module Samples.

(** A configuration that keeps files on the local disk. *)
Definition cfg_file : config :=
  {[ "current_backend" := {[ "storage_backend" := "file" ]} ]}.

(** A configuration that selects an S3 section. *)
Definition cfg_s3 : config :=
  {[ "current_backend" := {[ "storage_backend" := "amazon_S3" ]};
     "amazon_S3" := {[ "host" := "s3.example.org";
                       "bucket" := "airtime";
                       "api_key" := "AK";
                       "api_key_secret" := "SK" ]} ]}.

Definition uploader_file : CloudStorageUploader :=
  {| _storage_backend := "file"; _host := ""; _bucket := "";
     _api_key := ""; _api_key_secret := "" |}.

Definition uploader_s3 : CloudStorageUploader :=
  {| _storage_backend := "amazon_S3"; _host := "s3.example.org";
     _bucket := "airtime"; _api_key := "AK"; _api_key_secret := "SK" |}.

(** A store that lets every operation through. *)
Definition store_up : s3_service :=
  {| on_connect := fun _ _ _ => None;
     on_get_bucket := fun _ => None;
     on_put := fun _ _ => None |}.

(** A store that accepts the connection and the bucket lookup and rejects
    the write. *)
Definition store_rejecting_put : s3_service :=
  {| on_connect := fun _ _ _ => None;
     on_get_bucket := fun _ => None;
     on_put := fun _ _ => Some (StoreError "503 Service Unavailable") |}.

Definition ten_bytes : list Byte.byte := repeat Byte.x00 10.

(** One dictionary at address 1, one ten-byte file, the random source
    [0, 1, 2, ...]. *)
Definition world_with (m : gmap string pyval) (path : string)
           (protected : gset string) (svc : s3_service) : world :=
  {| heap := {[ 1%positive := m ]};
     fs := {[ path := ten_bytes ]};
     fs_protected := protected;
     s3 := svc;
     entropy := fun n => N.of_nat n;
     drawn := 0;
     trace := [] |}.

Definition song : string := "/srv/organize/My Song.mp3".

Definition md_station : gmap string pyval :=
  {[ "file_prefix" := VStr "stations/42"; "track_title" := VStr "My Song" ]}.

Definition md_spaced_prefix : gmap string pyval :=
  {[ "file_prefix" := VStr "my station" ]}.

Definition hidden_take : string := "/srv/organize/.my file".

Definition md_no_prefix : gmap string pyval :=
  {[ "track_title" := VStr "My Song" ]}.

End Samples.

(** The options the constructor reads from the selected section (lines
    33-36), in the order it reads them. *)
Definition connection_options : list string :=
  ["host"; "bucket"; "api_key"; "api_key_secret"].

(** Everything a call can add to the trace, in order: the three store
    operations of lines 84-90 and the log entry of line 98. *)
Definition call_events (self : CloudStorageUploader) (audio_file_path : string)
           (fp : pyval) (content : list Byte.byte) (w : world) : list event :=
  [S3Connect (_api_key self) (_api_key_secret self) (_host self);
   S3GetBucket (_bucket self);
   S3PutObject (_bucket self)
     (resource_id_of audio_file_path fp (next_unique_id w))
     [("filename", OsPath.basename audio_file_path)] content;
   LogInfo ("Could not remove " +:+ audio_file_path
            +:+ " from organize directory")].

(** * Evaluation on sample inputs *)

Module Examples_path.
Import PyStr OsPath.

Example basename_abs : basename "/srv/organize/My Song.mp3" = "My Song.mp3".
Proof. reflexivity. Qed.

Example basename_plain : basename "track.ogg" = "track.ogg".
Proof. reflexivity. Qed.

Example basename_dir : basename "/srv/organize/" = "".
Proof. reflexivity. Qed.

Example splitext_mp3 : splitext "My Song.mp3" = ("My Song", ".mp3").
Proof. reflexivity. Qed.

Example splitext_two_dots : splitext "a.tar.gz" = ("a.tar", ".gz").
Proof. reflexivity. Qed.

Example splitext_none : splitext "README" = ("README", "").
Proof. reflexivity. Qed.

Example splitext_dotfile : splitext ".bashrc" = (".bashrc", "").
Proof. reflexivity. Qed.

Example splitext_dots : splitext "..a" = ("..a", "").
Proof. reflexivity. Qed.

Example splitext_trailing_dot : splitext "a." = ("a", ".").
Proof. reflexivity. Qed.

Example splitext_space_ext : splitext "take.final mix" = ("take", ".final mix").
Proof. reflexivity. Qed.

Example slice_last_two : slice_from (-2) "abcdef" = "ef".
Proof. reflexivity. Qed.

Example slice_last_two_short : slice_from (-2) "a" = "a".
Proof. reflexivity. Qed.

Example replace_spaces : replace " " "-" "My  Song 1" = "My--Song-1".
Proof. reflexivity. Qed.

End Examples_path.

Module Examples_uuid.
Import Uuid.

Example uuid_zero :
  UUID_str (UUID_v4 0) = "00000000-0000-4000-8000-000000000000".
Proof. vm_compute. reflexivity. Qed.

Example uuid_ones :
  UUID_str (UUID_v4 (2 ^ 128 - 1)) = "ffffffff-ffff-4fff-bfff-ffffffffffff".
Proof. vm_compute. reflexivity. Qed.

Example uuid_mixed :
  UUID_str (UUID_v4 0x0123456789abcdef0123456789abcdef)
  = "01234567-89ab-4def-8123-456789abcdef".
Proof. vm_compute. reflexivity. Qed.

Example format_short : format_032x 255 = "000000000000000000000000000000ff".
Proof. vm_compute. reflexivity. Qed.

End Examples_uuid.

Module Examples_values.

Example py_str_int : py_str (VInt 42) = "42".
Proof. reflexivity. Qed.

Example py_str_neg : py_str (VInt (-7)) = "-7".
Proof. reflexivity. Qed.

Example py_str_zero : py_str (VInt 0) = "0".
Proof. reflexivity. Qed.

End Examples_values.

Module Examples_upload.
Import Samples.

Example init_file : __init__ cfg_file = inr uploader_file.
Proof. vm_compute. reflexivity. Qed.

Example init_s3 : __init__ cfg_s3 = inr uploader_s3.
Proof. vm_compute. reflexivity. Qed.

Example init_missing_section :
  __init__ (delete "amazon_S3" cfg_s3) = inl (NoSectionError "amazon_S3").
Proof. vm_compute. reflexivity. Qed.

(** The end-to-end scenario: a ten-byte ["My Song.mp3"] under prefix
    ["stations/42"] with a remote backend. *)
Example upload_my_song :
  let w := world_with md_station song ∅ store_up in
  let r := upload_obj uploader_s3 song 1%positive w in
  let rid := "stations/42/00/My-Song_00000000-0000-4000-8000-000000000000.mp3" in
  fst r = inr 1%positive
  /\ heap (snd r) !! 1%positive
     = Some (<["filesize" := VInt 10]>
             (<["filename" := VStr "My Song.mp3"]>
              (<["resource_id" := VStr rid]>
               (<["storage_backend" := VStr "amazon_S3"]> md_station))))
  /\ fs (snd r) !! song = None
  /\ trace (snd r)
     = [S3Connect "AK" "SK" "s3.example.org"; S3GetBucket "airtime";
        S3PutObject "airtime" rid [("filename", "My Song.mp3")] ten_bytes].
Proof. vm_compute. repeat split; reflexivity. Qed.

(** A space in the extension and a numeric prefix. *)
Example resource_id_spaced_extension :
  resource_id_of "/srv/organize/take 1.final mix" (VInt 42)
                 "01234567-89ab-4def-8123-456789abcdef"
  = "42/ef/take-1_01234567-89ab-4def-8123-456789abcdef.final mix".
Proof. vm_compute. reflexivity. Qed.

(** A file the process may not unlink stays, and the call still returns. *)
Example upload_protected_file :
  let w := world_with md_station song {[ song ]} store_up in
  let r := upload_obj uploader_s3 song 1%positive w in
  fst r = inr 1%positive
  /\ fs (snd r) !! song = Some ten_bytes
  /\ last (trace (snd r))
     = Some (LogInfo
               "Could not remove /srv/organize/My Song.mp3 from organize directory").
Proof. vm_compute. repeat split; reflexivity. Qed.

(** A missing source file stops the call at the write, after the
    connection and the bucket lookup. *)
Example upload_missing_file :
  let w := world_with md_station song ∅ store_up in
  let r := upload_obj uploader_s3 "/srv/organize/gone.mp3" 1%positive w in
  fst r = inl (IOError "/srv/organize/gone.mp3")
  /\ trace (snd r)
     = [S3Connect "AK" "SK" "s3.example.org"; S3GetBucket "airtime"]
  /\ heap (snd r) = heap w.
Proof. vm_compute. repeat split; reflexivity. Qed.

End Examples_upload.

(** * Facts about the string primitives *)

Module PyStrFacts.
Import PyStr.

Lemma app_cons (a : ascii) (s t : string) :
  String a s +:+ t = String a (s +:+ t).
Proof. reflexivity. Qed.

Lemma app_empty_l (t : string) : "" +:+ t = t.
Proof. reflexivity. Qed.

Lemma chars_app (s t : string) : chars (s +:+ t) = chars s ++ chars t.
Proof.
  induction s as [|a s IH]; [reflexivity|].
  rewrite app_cons. unfold chars in *. cbn [list_ascii_of_string].
  now rewrite IH.
Qed.

Lemma chars_inj (s t : string) : chars s = chars t -> s = t.
Proof.
  intros H. rewrite <- (string_of_list_ascii_of_string s).
  rewrite <- (string_of_list_ascii_of_string t). unfold chars in H.
  now rewrite H.
Qed.

Lemma length_chars (s : string) : length (chars s) = String.length s.
Proof. induction s as [|a s IH]; cbn; [reflexivity | now rewrite <- IH]. Qed.

Lemma str_length_app (s t : string) :
  String.length (s +:+ t) = (String.length s + String.length t)%nat.
Proof. rewrite <- !length_chars, chars_app. apply length_app. Qed.

Lemma chars_take (n : nat) (s : string) : chars (str_take n s) = take n (chars s).
Proof.
  revert s; induction n as [|n IH]; intros [|a s]; cbn; try reflexivity.
  now rewrite <- IH.
Qed.

Lemma chars_drop (n : nat) (s : string) : chars (str_drop n s) = drop n (chars s).
Proof.
  revert s; induction n as [|n IH]; intros [|a s]; cbn; try reflexivity.
  apply IH.
Qed.

Lemma str_take_drop (n : nat) (s : string) : str_take n s +:+ str_drop n s = s.
Proof.
  apply chars_inj. rewrite chars_app, chars_take, chars_drop.
  apply take_drop.
Qed.

Lemma str_app_assoc (s t u : string) : (s +:+ t) +:+ u = s +:+ t +:+ u.
Proof. apply chars_inj. rewrite !chars_app. now rewrite <- List.app_assoc. Qed.

Lemma count_app (c : ascii) (s t : string) :
  count c (s +:+ t) = (count c s + count c t)%nat.
Proof.
  induction s as [|a s IH]; [reflexivity|].
  rewrite app_cons. cbn. rewrite IH. lia.
Qed.

Lemma count_replace (old new : ascii) (s : string) :
  old <> new -> count old (replace old new s) = O.
Proof.
  intros Hne. induction s as [|a s IH]; [reflexivity|]. cbn.
  rewrite IH. destruct (Ascii.eqb a old) eqn:E.
  - destruct (Ascii.eqb new old) eqn:E'; [|reflexivity].
    apply Ascii.eqb_eq in E'. congruence.
  - now rewrite E.
Qed.

Lemma count_replace_other (old new c : ascii) (s : string) :
  c <> old -> c <> new -> count c (replace old new s) = count c s.
Proof.
  intros H1 H2. induction s as [|a s IH]; [reflexivity|]. cbn.
  rewrite IH. destruct (Ascii.eqb a old) eqn:E; [|reflexivity].
  apply Ascii.eqb_eq in E. subst a.
  destruct (Ascii.eqb new c) eqn:E1; [apply Ascii.eqb_eq in E1; congruence|].
  destruct (Ascii.eqb old c) eqn:E2; [apply Ascii.eqb_eq in E2; congruence|].
  reflexivity.
Qed.

Lemma length_replace (old new : ascii) (s : string) :
  String.length (replace old new s) = String.length s.
Proof. induction s as [|a s IH]; cbn; [reflexivity | now rewrite IH]. Qed.

(** [count c s = 0] says that [c] does not occur in [s]. *)
Lemma count_zero_iff (c : ascii) (s : string) :
  count c s = O <-> ~ In c (chars s).
Proof.
  induction s as [|a s IH]; cbn.
  - tauto.
  - destruct (Ascii.eqb a c) eqn:E.
    + apply Ascii.eqb_eq in E. split; [discriminate | intros H; exfalso; auto].
    + apply Ascii.eqb_neq in E. cbn. rewrite IH. tauto.
Qed.

Lemma count_forall (c : ascii) (P : ascii -> Prop) (s : string) :
  Forall P (chars s) -> ~ P c -> count c s = O.
Proof.
  intros HF Hc. apply count_zero_iff. intros Hin.
  rewrite Forall_forall in HF. apply Hc, HF. now apply list_elem_of_In.
Qed.

Lemma slice_index_nonneg (i : Z) (s : string) :
  0 <= i -> slice_index i s = Nat.min (Z.to_nat i) (String.length s).
Proof.
  intros Hi. unfold slice_index.
  destruct (Z.ltb_spec i 0); lia.
Qed.

Lemma slice_index_neg (i : Z) (s : string) :
  i < 0 -> slice_index i s = (String.length s - Z.to_nat (- i))%nat.
Proof.
  intros Hi. unfold slice_index.
  destruct (Z.ltb_spec i 0); lia.
Qed.

(** [s[-2:]] is the two-character tail of a string that has two characters. *)
Lemma last_two_length (s : string) :
  String.length (slice_from (-2) s) = Nat.min 2 (String.length s).
Proof.
  unfold slice_from. rewrite slice_index_neg by lia.
  rewrite <- !length_chars, chars_drop, length_drop. lia.
Qed.

Lemma last_two_split (s : string) :
  s = str_take (String.length s - 2) s +:+ slice_from (-2) s.
Proof.
  unfold slice_from. rewrite slice_index_neg by lia.
  change (Z.to_nat (- -2)) with 2%nat. symmetry. apply str_take_drop.
Qed.

Lemma endswith_app (s t : string) : endswith (s +:+ t) t = true.
Proof.
  unfold endswith. rewrite str_length_app.
  apply andb_true_intro; split.
  - apply String.eqb_eq, chars_inj.
    rewrite chars_drop, chars_app.
    replace (String.length s + String.length t - String.length t)%nat
      with (length (chars s)) by (rewrite length_chars; lia).
    now rewrite drop_app_length.
  - apply Nat.leb_le. lia.
Qed.

Lemma startswith_app (s t : string) : startswith (s +:+ t) s = true.
Proof.
  unfold startswith. apply String.eqb_eq, chars_inj.
  rewrite chars_take, chars_app, <- length_chars.
  now rewrite take_app_length.
Qed.

End PyStrFacts.

Module OsPathFacts.
Import PyStr PyStrFacts OsPath.

Lemma app_empty_r (s : string) : s +:+ "" = s.
Proof. apply chars_inj. rewrite chars_app. apply app_nil_r. Qed.

Lemma slice_to_from (i : Z) (s : string) : slice_to i s +:+ slice_from i s = s.
Proof. apply str_take_drop. Qed.

Lemma slice_to_zero (s : string) : slice_to 0 s = "".
Proof.
  unfold slice_to. rewrite slice_index_nonneg by lia.
  now destruct s.
Qed.

(** The loop either leaves through its [return] with the split at
    [dotIndex], or falls through. *)
Lemma splitext_loop_some n p extsep i d r :
  splitext_loop n p extsep i d = Some r ->
  r = (slice_to d p, slice_from d p).
Proof.
  revert i; induction n as [|n IH]; intros i; cbn; [discriminate|].
  destruct (i <? d); [|discriminate].
  destruct (negb _); [congruence | apply IH].
Qed.

(** The bound handed to the loop is never the reason it stops: any larger
    bound gives the same result. *)
Lemma splitext_loop_fuel n p extsep i d :
  (Z.to_nat (d - i) <= n)%nat ->
  splitext_loop n p extsep i d
  = splitext_loop (Z.to_nat (d - i)) p extsep i d.
Proof.
  revert i; induction n as [|n IH]; intros i Hn.
  - now replace (Z.to_nat (d - i)) with O by lia.
  - cbn. destruct (Z.ltb_spec i d) as [Hlt|Hge].
    + replace (Z.to_nat (d - i)) with (S (Z.to_nat (d - (i + 1)))) by lia.
      cbn. destruct (Z.ltb_spec i d); [|lia].
      destruct (negb _); [reflexivity|].
      apply IH. lia.
    + now replace (Z.to_nat (d - i)) with O by lia.
Qed.

(** Root and extension always concatenate back to the argument. *)
Lemma _splitext_app p sep extsep :
  fst (_splitext p sep extsep) +:+ snd (_splitext p sep extsep) = p.
Proof.
  unfold _splitext.
  destruct (rfind sep p <? rfind extsep p).
  - destruct (splitext_loop _ _ _ _ _) as [r|] eqn:E.
    + apply splitext_loop_some in E. subst r. apply slice_to_from.
    + cbn. rewrite slice_to_zero. apply app_empty_r.
  - cbn. rewrite slice_to_zero. apply app_empty_r.
Qed.

Lemma splitext_app p : fst (splitext p) +:+ snd (splitext p) = p.
Proof. apply _splitext_app. Qed.

End OsPathFacts.

Module UuidFacts.
Import PyStr PyStrFacts Uuid.
Local Open Scope N_scope.

Lemma hex_digit_uuid_char (d : N) : uuid_char (hex_digit d).
Proof.
  unfold uuid_char.
  destruct d as [|p]; [cbn; tauto|].
  do 4 (destruct p as [p|p|]; try (cbn; tauto)).
Qed.

Lemma hex_digit_inj (d e : N) :
  d < 16 -> e < 16 -> hex_digit d = hex_digit e -> d = e.
Proof.
  intros Hd He.
  assert (Hcases : forall x, x < 16 ->
            x = 0 \/ x = 1 \/ x = 2 \/ x = 3 \/ x = 4 \/ x = 5 \/ x = 6
            \/ x = 7 \/ x = 8 \/ x = 9 \/ x = 10 \/ x = 11 \/ x = 12
            \/ x = 13 \/ x = 14 \/ x = 15) by (intros; lia).
  pose proof (Hcases d Hd) as Cd. pose proof (Hcases e He) as Ce.
  clear Hcases Hd He.
  repeat (destruct Cd as [Cd|Cd]); repeat (destruct Ce as [Ce|Ce]);
    subst d e; cbn; intros H; first [reflexivity | discriminate H].
Qed.

Lemma length_hex_fixed (w : nat) (n : N) : String.length (hex_fixed w n) = w.
Proof.
  revert n; induction w as [|w IH]; intros n; cbn [hex_fixed]; [reflexivity|].
  rewrite str_length_app, IH. cbn. lia.
Qed.

Lemma hex_fixed_chars (w : nat) (n : N) :
  Forall uuid_char (chars (hex_fixed w n)).
Proof.
  revert n; induction w as [|w IH]; intros n; cbn [hex_fixed].
  - constructor.
  - rewrite chars_app. apply Forall_app; split; [apply IH|].
    cbn. constructor; [apply hex_digit_uuid_char | constructor].
Qed.

(** Fixed-width hexadecimal text determines the number it was printed
    from. *)
Lemma hex_fixed_inj (w : nat) (n m : N) :
  n < 16 ^ N.of_nat w -> m < 16 ^ N.of_nat w ->
  hex_fixed w n = hex_fixed w m -> n = m.
Proof.
  revert n m; induction w as [|w IH]; intros n m Hn Hm H.
  - cbn in Hn, Hm. lia.
  - cbn [hex_fixed] in H.
    apply (f_equal chars) in H. rewrite !chars_app in H.
    apply app_inj_2 in H; [|reflexivity].
    destruct H as [H1 H2]. apply chars_inj in H1.
    cbn in H2. injection H2 as H2.
    rewrite Nat2N.inj_succ, N.pow_succ_r' in Hn, Hm.
    apply hex_digit_inj in H2; try (apply N.mod_lt; lia).
    apply IH in H1; try (apply N.Div0.div_lt_upper_bound; lia).
    rewrite (N.div_mod n 16), (N.div_mod m 16) by lia.
    now rewrite H1, H2.
Qed.

Lemma format_032x_128 (n : N) : n < 2 ^ 128 -> format_032x n = hex_fixed 32 n.
Proof.
  intros Hn. unfold format_032x. f_equal.
  destruct (N.eq_dec n 0) as [->|Hz]; [reflexivity|].
  assert (N.log2 n < 128) by (apply N.log2_lt_pow2; lia).
  assert (N.log2 n / 4 < 32) by (apply N.Div0.div_lt_upper_bound; lia).
  lia.
Qed.

Lemma UUID_v4_range (raw : N) : UUID_v4 raw < 2 ^ 128.
Proof.
  unfold UUID_v4.
  set (a := raw mod 2 ^ 128).
  assert (Ha : a < 2 ^ 128) by (apply N.mod_lt; lia).
  assert (Hbits : forall x, x < 2 ^ 128 <-> forall k, 128 <= k -> N.testbit x k = false).
  { intros x. split.
    - intros Hx k Hk. destruct (N.eq_dec x 0) as [->|Hx0]; [apply N.bits_0|].
      apply N.bits_above_log2. apply N.log2_lt_pow2 in Hx; lia.
    - intros Hb. destruct (N.eq_dec x 0) as [->|Hx0]; [lia|].
      apply N.log2_lt_pow2; [lia|].
      destruct (N.lt_ge_cases (N.log2 x) 128) as [|Hge]; [assumption|].
      specialize (Hb _ Hge). rewrite N.bit_log2 in Hb by assumption.
      discriminate. }
  apply Hbits. intros k Hk.
  rewrite N.lor_spec, N.ldiff_spec, N.lor_spec, N.ldiff_spec.
  rewrite (proj1 (Hbits a) Ha k Hk).
  rewrite (proj1 (Hbits (N.shiftl 4 76)) ltac:(vm_compute; reflexivity) k Hk).
  rewrite (proj1 (Hbits (N.shiftl 0x8000 48)) ltac:(vm_compute; reflexivity) k Hk).
  reflexivity.
Qed.

End UuidFacts.

Module UuidTextFacts.
Import PyStr PyStrFacts Uuid UuidFacts.

Lemma chars_slice_to (j : Z) (s : string) :
  (0 <= j)%Z -> chars (slice_to j s) = take (Z.to_nat j) (chars s).
Proof.
  intros Hj. unfold slice_to. rewrite slice_index_nonneg, chars_take by lia.
  rewrite <- length_chars.
  destruct (Nat.le_ge_cases (Z.to_nat j) (length (chars s))) as [H|H].
  - now rewrite Nat.min_l.
  - rewrite Nat.min_r by assumption.
    now rewrite !take_ge by lia.
Qed.

Lemma chars_slice_from (i : Z) (s : string) :
  (0 <= i)%Z -> chars (slice_from i s) = drop (Z.to_nat i) (chars s).
Proof.
  intros Hi. unfold slice_from. rewrite slice_index_nonneg, chars_drop by lia.
  rewrite <- length_chars.
  destruct (Nat.le_ge_cases (Z.to_nat i) (length (chars s))) as [H|H].
  - now rewrite Nat.min_l.
  - rewrite Nat.min_r by assumption.
    now rewrite !drop_ge by lia.
Qed.

Lemma chars_slice (i j : Z) (s : string) :
  (0 <= i <= j)%Z ->
  chars (slice i j s)
  = take (Z.to_nat j - Z.to_nat i) (drop (Z.to_nat i) (chars s)).
Proof.
  intros Hij. unfold slice.
  rewrite chars_take, chars_drop, !slice_index_nonneg by lia.
  rewrite <- length_chars. set (l := chars s).
  destruct (Nat.le_ge_cases (length l) (Z.to_nat i)) as [H|H].
  - rewrite (Nat.min_r _ _ H). rewrite !drop_ge by lia. now rewrite !take_nil.
  - rewrite (Nat.min_l _ _ H).
    destruct (Nat.le_ge_cases (Z.to_nat j) (length l)) as [H'|H'].
    + now rewrite Nat.min_l.
    + rewrite Nat.min_r by assumption.
      rewrite !take_ge; [reflexivity | |]; rewrite length_drop; lia.
Qed.

(** The five groups of a canonical UUID text, as character lists. *)
Lemma chars_UUID_str (u : N) :
  let h := chars (format_032x u) in
  chars (UUID_str u)
  = take 8 h ++ chars "-" ++ take 4 (drop 8 h) ++ chars "-"
      ++ take 4 (drop 12 h) ++ chars "-" ++ take 4 (drop 16 h)
      ++ chars "-" ++ drop 20 h.
Proof.
  unfold UUID_str. cbv zeta. rewrite !chars_app.
  rewrite chars_slice_to, chars_slice_from, !chars_slice by lia.
  reflexivity.
Qed.

Lemma regroup {A} (l : list A) :
  l = take 8 l ++ take 4 (drop 8 l) ++ take 4 (drop 12 l)
        ++ take 4 (drop 16 l) ++ drop 20 l.
Proof.
  rewrite <- (take_drop 8 l) at 1. f_equal.
  rewrite <- (take_drop 4 (drop 8 l)) at 1. f_equal. rewrite drop_drop.
  rewrite <- (take_drop 4 (drop (8 + 4) l)) at 1. f_equal. rewrite drop_drop.
  rewrite <- (take_drop 4 (drop (8 + 4 + 4) l)) at 1. f_equal.
  now rewrite drop_drop.
Qed.

(** Every character of a UUID text is a hexadecimal digit or a hyphen. *)
Lemma UUID_str_chars (u : N) : Forall uuid_char (chars (UUID_str u)).
Proof.
  rewrite chars_UUID_str. cbv zeta.
  assert (Hh : Forall uuid_char (chars (format_032x u)))
    by apply hex_fixed_chars.
  assert (Hd : Forall uuid_char (chars "-"))
    by (repeat constructor; unfold uuid_char; cbn; tauto).
  repeat (apply Forall_app; split);
    auto using Forall_take, Forall_drop.
Qed.

Lemma UUID_str_no_space (u : N) : count " " (UUID_str u) = O.
Proof.
  apply (count_forall _ uuid_char); [apply UUID_str_chars|].
  unfold uuid_char. cbn. intros H.
  repeat (destruct H as [H|H]; [discriminate H|]). exact H.
Qed.

Lemma UUID_str_length (u : N) :
  (u < 2 ^ 128)%N -> String.length (UUID_str u) = 36%nat.
Proof.
  intros Hu. rewrite <- length_chars, chars_UUID_str. cbv zeta.
  rewrite format_032x_128 by assumption.
  assert (H : length (chars (hex_fixed 32 u)) = 32%nat)
    by (rewrite length_chars; apply length_hex_fixed).
  rewrite !length_app, !length_take, !length_drop, H. reflexivity.
Qed.

(** Distinct 128-bit values have distinct canonical texts. *)
Lemma UUID_str_inj (u v : N) :
  (u < 2 ^ 128)%N -> (v < 2 ^ 128)%N -> UUID_str u = UUID_str v -> u = v.
Proof.
  intros Hu Hv H.
  apply (f_equal chars) in H. rewrite !chars_UUID_str in H. cbv zeta in H.
  rewrite !format_032x_128 in H by assumption.
  set (h := chars (hex_fixed 32 u)) in *.
  set (k := chars (hex_fixed 32 v)) in *.
  assert (Lh : length h = 32%nat)
    by (unfold h; rewrite length_chars; apply length_hex_fixed).
  assert (Lk : length k = 32%nat)
    by (unfold k; rewrite length_chars; apply length_hex_fixed).
  assert (E : h = k).
  { rewrite (regroup h), (regroup k).
    apply app_inj_1 in H as [-> H];
      [|rewrite !length_take; lia].
    apply app_inj_1 in H as [_ H]; [|reflexivity].
    apply app_inj_1 in H as [-> H];
      [|rewrite !length_take, !length_drop; lia].
    apply app_inj_1 in H as [_ H]; [|reflexivity].
    apply app_inj_1 in H as [-> H];
      [|rewrite !length_take, !length_drop; lia].
    apply app_inj_1 in H as [_ H]; [|reflexivity].
    apply app_inj_1 in H as [-> H];
      [|rewrite !length_take, !length_drop; lia].
    apply app_inj_1 in H as [_ ->]; [|reflexivity].
    reflexivity. }
  apply chars_inj in E.
  apply (hex_fixed_inj 32); [exact Hu | exact Hv | exact E].
Qed.

End UuidTextFacts.

(** * The runs of [upload_obj] *)

Ltac run_prims :=
  unfold bind, ret, uuid4_str, dict_getitem, S3Connection, get_bucket,
    set_contents_from_filename, getsize, dict_setitem, try_except, remove,
    logging_info, set_drawn, emit, set_heap, set_fs;
  cbn.

Ltac run_with H := rewrite H; cbn.

Section Runs.
Variable self : CloudStorageUploader.
Variable audio_file_path : string.
Variable metadata : loc.
Variable w : world.

Let w1 := set_drawn (S (drawn w)) w.
Let w2 :=
  emit (S3Connect (_api_key self) (_api_key_secret self) (_host self)) w1.
Let w3 := emit (S3GetBucket (_bucket self)) w2.

Lemma run_no_dict :
  heap w !! metadata = None ->
  upload_obj self audio_file_path metadata w = (inl (KeyError "file_prefix"), w1).
Proof.
  intros H. unfold upload_obj. destruct (OsPath.splitext _) as [fn ext].
  subst w1 w2 w3; run_prims. now rewrite H.
Qed.

Lemma run_no_prefix m :
  heap w !! metadata = Some m -> m !! "file_prefix" = None ->
  upload_obj self audio_file_path metadata w = (inl (KeyError "file_prefix"), w1).
Proof.
  intros H Hp. unfold upload_obj. destruct (OsPath.splitext _) as [fn ext].
  subst w1 w2 w3; run_prims. now rewrite H, Hp.
Qed.

Lemma run_connect_fails m fp e :
  heap w !! metadata = Some m -> m !! "file_prefix" = Some fp ->
  on_connect (s3 w) (_api_key self) (_api_key_secret self) (_host self) = Some e ->
  upload_obj self audio_file_path metadata w = (inl e, w2).
Proof.
  intros H Hp Hc. unfold upload_obj. destruct (OsPath.splitext _) as [fn ext].
  subst w1 w2 w3; run_prims.
  run_with H. run_with Hp. now run_with Hc.
Qed.

Lemma run_get_bucket_fails m fp e :
  heap w !! metadata = Some m -> m !! "file_prefix" = Some fp ->
  on_connect (s3 w) (_api_key self) (_api_key_secret self) (_host self) = None ->
  on_get_bucket (s3 w) (_bucket self) = Some e ->
  upload_obj self audio_file_path metadata w = (inl e, w3).
Proof.
  intros H Hp Hc Hb. unfold upload_obj. destruct (OsPath.splitext _) as [fn ext].
  subst w1 w2 w3; run_prims.
  run_with H. run_with Hp. run_with Hc. now run_with Hb.
Qed.

Lemma run_file_missing m fp :
  heap w !! metadata = Some m -> m !! "file_prefix" = Some fp ->
  on_connect (s3 w) (_api_key self) (_api_key_secret self) (_host self) = None ->
  on_get_bucket (s3 w) (_bucket self) = None ->
  fs w !! audio_file_path = None ->
  upload_obj self audio_file_path metadata w = (inl (IOError audio_file_path), w3).
Proof.
  intros H Hp Hc Hb Hf. unfold upload_obj. destruct (OsPath.splitext _) as [fn ext].
  subst w1 w2 w3; run_prims.
  run_with H. run_with Hp. run_with Hc. run_with Hb. now run_with Hf.
Qed.

Lemma run_put_fails m fp content e :
  heap w !! metadata = Some m -> m !! "file_prefix" = Some fp ->
  on_connect (s3 w) (_api_key self) (_api_key_secret self) (_host self) = None ->
  on_get_bucket (s3 w) (_bucket self) = None ->
  fs w !! audio_file_path = Some content ->
  on_put (s3 w) (_bucket self)
         (resource_id_of audio_file_path fp (next_unique_id w)) = Some e ->
  upload_obj self audio_file_path metadata w
  = (inl e,
     emit (S3PutObject (_bucket self)
             (resource_id_of audio_file_path fp (next_unique_id w))
             [("filename", OsPath.basename audio_file_path)] content) w3).
Proof.
  intros H Hp Hc Hb Hf. unfold upload_obj, resource_id_of.
  destruct (OsPath.splitext _) as [fn ext]. intros He.
  subst w1 w2 w3; run_prims.
  run_with H. run_with Hp. run_with Hc. run_with Hb. run_with Hf.
  unfold next_unique_id in He. now run_with He.
Qed.

Lemma run_returns m fp content :
  heap w !! metadata = Some m -> m !! "file_prefix" = Some fp ->
  on_connect (s3 w) (_api_key self) (_api_key_secret self) (_host self) = None ->
  on_get_bucket (s3 w) (_bucket self) = None ->
  fs w !! audio_file_path = Some content ->
  on_put (s3 w) (_bucket self)
         (resource_id_of audio_file_path fp (next_unique_id w)) = None ->
  upload_obj self audio_file_path metadata w
  = (inr metadata, uploaded self audio_file_path metadata m fp content w).
Proof.
  intros H Hp Hc Hb Hf. unfold uploaded, augmented, upload_obj, resource_id_of.
  destruct (OsPath.splitext _) as [fn ext]. intros He.
  subst w1 w2 w3; run_prims.
  run_with H. run_with Hp. run_with Hc. run_with Hb. run_with Hf.
  unfold next_unique_id in *. run_with He. run_with Hf. run_with H.
  run_with Hf.
  destruct (decide (audio_file_path ∈ fs_protected w)) as [Hin|Hnin].
  - rewrite (bool_decide_eq_true_2 _ Hin). cbn.
    repeat (rewrite lookup_insert_eq; cbn).
    rewrite !insert_insert_eq, <- !List.app_assoc. reflexivity.
  - rewrite (bool_decide_eq_false_2 _ Hnin). cbn.
    repeat (rewrite lookup_insert_eq; cbn).
    rewrite !insert_insert_eq, <- !List.app_assoc. reflexivity.
Qed.

End Runs.

(** A call that returns went through every step: the dictionary held a
    [file_prefix], the three store operations were let through and the
    file was there. *)
Lemma run_returns_inv self audio_file_path metadata w r w' :
  upload_obj self audio_file_path metadata w = (inr r, w') ->
  r = metadata /\
  exists m fp content,
    heap w !! metadata = Some m /\
    m !! "file_prefix" = Some fp /\
    on_connect (s3 w) (_api_key self) (_api_key_secret self) (_host self)
    = None /\
    on_get_bucket (s3 w) (_bucket self) = None /\
    fs w !! audio_file_path = Some content /\
    on_put (s3 w) (_bucket self)
           (resource_id_of audio_file_path fp (next_unique_id w)) = None /\
    w' = uploaded self audio_file_path metadata m fp content w.
Proof.
  intros Hrun.
  destruct (heap w !! metadata) as [m|] eqn:H;
    [|rewrite run_no_dict in Hrun by assumption; discriminate].
  destruct (m !! "file_prefix") as [fp|] eqn:Hp;
    [|rewrite (run_no_prefix _ _ _ _ m) in Hrun by assumption; discriminate].
  destruct (on_connect (s3 w) (_api_key self) (_api_key_secret self)
                       (_host self)) as [e|] eqn:Hc;
    [rewrite (run_connect_fails _ _ _ _ m fp e) in Hrun by assumption;
     discriminate|].
  destruct (on_get_bucket (s3 w) (_bucket self)) as [e|] eqn:Hb;
    [rewrite (run_get_bucket_fails _ _ _ _ m fp e) in Hrun by assumption;
     discriminate|].
  destruct (fs w !! audio_file_path) as [content|] eqn:Hf;
    [|rewrite (run_file_missing _ _ _ _ m fp) in Hrun by assumption;
      discriminate].
  destruct (on_put (s3 w) (_bucket self)
              (resource_id_of audio_file_path fp (next_unique_id w)))
    as [e|] eqn:He;
    [rewrite (run_put_fails _ _ _ _ m fp content e) in Hrun by assumption;
     discriminate|].
  rewrite (run_returns _ _ _ _ m fp content) in Hrun by assumption.
  injection Hrun as <- <-.
  split; [reflexivity|]. exists m, fp, content. repeat split; assumption.
Qed.

(** What a returning call leaves in the dictionary. *)
Lemma uploaded_heap self p md m fp content w :
  heap (uploaded self p md m fp content w) !! md
  = Some (augmented m (Z.of_nat (length content)) (OsPath.basename p)
            (resource_id_of p fp (next_unique_id w)) (_storage_backend self)).
Proof. unfold uploaded. cbn. apply lookup_insert_eq. Qed.

Lemma augmented_filesize m n f r b :
  augmented m n f r b !! "filesize" = Some (VInt n).
Proof.
  unfold augmented. rewrite !lookup_insert_ne by discriminate.
  apply lookup_insert_eq.
Qed.

Lemma augmented_filename m n f r b :
  augmented m n f r b !! "filename" = Some (VStr f).
Proof.
  unfold augmented. rewrite !lookup_insert_ne by discriminate.
  apply lookup_insert_eq.
Qed.

Lemma augmented_resource_id m n f r b :
  augmented m n f r b !! "resource_id" = Some (VStr r).
Proof.
  unfold augmented. rewrite !lookup_insert_ne by discriminate.
  apply lookup_insert_eq.
Qed.

Lemma augmented_storage_backend m n f r b :
  augmented m n f r b !! "storage_backend" = Some (VStr b).
Proof. unfold augmented. now rewrite lookup_insert_eq. Qed.

Lemma augmented_other m n f r b k :
  k <> "filesize" -> k <> "filename" -> k <> "resource_id" ->
  k <> "storage_backend" ->
  augmented m n f r b !! k = m !! k.
Proof.
  intros. unfold augmented. now rewrite !lookup_insert_ne by congruence.
Qed.

(** ** The shape of a resource id *)

Lemma resource_id_of_eq p fp tok :
  resource_id_of p fp tok
  = py_str fp +:+ "/" +:+ PyStr.slice_from (-2) tok +:+ "/"
      +:+ PyStr.replace " " "-" (fst (OsPath.splitext (OsPath.basename p)))
      +:+ "_" +:+ tok +:+ snd (OsPath.splitext (OsPath.basename p)).
Proof.
  unfold resource_id_of, format_resource_id.
  now destruct (OsPath.splitext _).
Qed.

Lemma resource_id_spaces p fp tok :
  PyStr.count " " (resource_id_of p fp tok)
  = (PyStr.count " " (py_str fp) + 2 * PyStr.count " " tok
     - PyStr.count " " (PyStr.str_take (String.length tok - 2) tok)
     + PyStr.count " " (snd (OsPath.splitext (OsPath.basename p))))%nat.
Proof.
  rewrite resource_id_of_eq, !PyStrFacts.count_app.
  rewrite PyStrFacts.count_replace by discriminate.
  rewrite (PyStrFacts.last_two_split tok) at 2 3.
  rewrite !PyStrFacts.count_app. cbn. lia.
Qed.

Lemma resource_id_spaces_uuid p fp u :
  PyStr.count " " (resource_id_of p fp (Uuid.UUID_str u))
  = (PyStr.count " " (py_str fp)
     + PyStr.count " " (snd (OsPath.splitext (OsPath.basename p))))%nat.
Proof.
  rewrite resource_id_spaces.
  assert (H := UuidTextFacts.UUID_str_no_space u).
  assert (H' : PyStr.count " " (PyStr.str_take
                 (String.length (Uuid.UUID_str u) - 2) (Uuid.UUID_str u)) = O).
  { rewrite (PyStrFacts.last_two_split (Uuid.UUID_str u)) in H at 1.
    rewrite PyStrFacts.count_app in H. lia. }
  lia.
Qed.

Lemma resource_id_endswith p fp tok :
  PyStr.endswith (resource_id_of p fp tok)
                 (snd (OsPath.splitext (OsPath.basename p))) = true.
Proof.
  rewrite resource_id_of_eq.
  rewrite <- !PyStrFacts.str_app_assoc. apply PyStrFacts.endswith_app.
Qed.

Lemma resource_id_startswith p fp tok :
  PyStr.startswith (resource_id_of p fp tok) (py_str fp) = true.
Proof. rewrite resource_id_of_eq. apply PyStrFacts.startswith_app. Qed.

(** Two resource ids for the same path and prefix are equal only when the
    tokens are. *)
Lemma resource_id_token_inj p fp t1 t2 :
  resource_id_of p fp t1 = resource_id_of p fp t2 -> t1 = t2.
Proof.
  intros H. rewrite !resource_id_of_eq in H.
  apply (f_equal PyStr.chars) in H. rewrite !PyStrFacts.chars_app in H.
  apply app_inv_head in H. apply app_inv_head in H.
  assert (L := f_equal (@length ascii) H).
  rewrite !length_app, !PyStrFacts.length_chars, !PyStrFacts.last_two_length in L.
  assert (Lt : String.length t1 = String.length t2) by lia.
  apply app_inj_1 in H;
    [|rewrite !PyStrFacts.length_chars, !PyStrFacts.last_two_length; lia].
  destruct H as [_ H].
  do 3 apply app_inv_head in H.
  apply app_inv_tail in H. now apply PyStrFacts.chars_inj.
Qed.

(** * Properties of the uploader *)


Lemma init_file_fields cfg self :
  __init__ cfg = inr self -> _storage_backend self = "file" ->
  _host self = "" /\ _bucket self = "" /\ _api_key self = ""
  /\ _api_key_secret self = "".
Proof.
  unfold __init__, STORAGE_BACKEND_FILE.
  destruct (config_get cfg "current_backend" "storage_backend") as [e|sel];
    [discriminate|].
  destruct (String.eqb sel "file") eqn:E.
  - intros [= <-] _. cbn. auto.
  - destruct (config_get cfg sel "host"); [discriminate|].
    destruct (config_get cfg sel "bucket"); [discriminate|].
    destruct (config_get cfg sel "api_key"); [discriminate|].
    destruct (config_get cfg sel "api_key_secret"); [discriminate|].
    intros [= <-]. cbn. intros ->. discriminate E.
Qed.

(** Whenever the dictionary holds a [file_prefix], the first thing a call
    does to the outside is to open the store connection. *)
Lemma run_opens_connection self p md w m fp r w' :
  heap w !! md = Some m -> m !! "file_prefix" = Some fp ->
  upload_obj self p md w = (r, w') ->
  exists rest,
    trace w'
    = trace w
        ++ S3Connect (_api_key self) (_api_key_secret self) (_host self)
        :: rest.
Proof.
  intros H Hp Hrun.
  destruct (on_connect (s3 w) (_api_key self) (_api_key_secret self)
                       (_host self)) as [e|] eqn:Hc.
  { rewrite (run_connect_fails _ _ _ _ m fp e) in Hrun by assumption.
    injection Hrun as _ <-. now exists []. }
  destruct (on_get_bucket (s3 w) (_bucket self)) as [e|] eqn:Hb.
  { rewrite (run_get_bucket_fails _ _ _ _ m fp e) in Hrun by assumption.
    injection Hrun as _ <-. eexists. cbn. now rewrite <- List.app_assoc. }
  destruct (fs w !! p) as [content|] eqn:Hf.
  2:{ rewrite (run_file_missing _ _ _ _ m fp) in Hrun by assumption.
      injection Hrun as _ <-. eexists. cbn. now rewrite <- List.app_assoc. }
  destruct (on_put (s3 w) (_bucket self)
              (resource_id_of p fp (next_unique_id w))) as [e|] eqn:He.
  { rewrite (run_put_fails _ _ _ _ m fp content e) in Hrun by assumption.
    injection Hrun as _ <-. eexists. cbn. now rewrite <- !List.app_assoc. }
  rewrite (run_returns _ _ _ _ m fp content) in Hrun by assumption.
  injection Hrun as _ <-. eexists. unfold uploaded. cbn. reflexivity.
Qed.

(** ** The backend switch *)

(** C7: for every configuration the constructor accepts, [enabled] returns
    [false] exactly when the backend selector read from the configuration
    is the reserved value ["file"], and [true] otherwise; it returns the
    world it was given, unchanged. *)
Theorem enabled_false_iff_file_backend
        (cfg : config) (self : CloudStorageUploader) (w : world) :
  __init__ cfg = inr self ->
  exists selector,
    config_get cfg "current_backend" "storage_backend" = inr selector
    /\ enabled self w = (inr (negb (bool_decide (selector = "file"))), w).
Proof.
  unfold __init__, STORAGE_BACKEND_FILE.
  destruct (config_get cfg "current_backend" "storage_backend") as [e|sel];
    [discriminate|].
  intros Hinit. exists sel. split; [reflexivity|].
  assert (Hsel : _storage_backend self = sel).
  { destruct (String.eqb sel "file").
    - now injection Hinit as <-.
    - destruct (config_get cfg sel "host"); [discriminate|].
      destruct (config_get cfg sel "bucket"); [discriminate|].
      destruct (config_get cfg sel "api_key"); [discriminate|].
      destruct (config_get cfg sel "api_key_secret"); [discriminate|].
      now injection Hinit as <-. }
  unfold enabled. rewrite Hsel.
  destruct (String.eqb sel "file") eqn:E.
  - apply String.eqb_eq in E. now rewrite bool_decide_eq_true_2.
  - apply String.eqb_neq in E. now rewrite bool_decide_eq_false_2.
Qed.

Lemma enabled_false_iff_file_backend_witness :
  __init__ Samples.cfg_s3 = inr Samples.uploader_s3
  /\ exists selector,
       config_get Samples.cfg_s3 "current_backend" "storage_backend"
       = inr selector
       /\ enabled Samples.uploader_s3
            (Samples.world_with Samples.md_station Samples.song ∅
                                Samples.store_up)
          = (inr (negb (bool_decide (selector = "file"))),
             Samples.world_with Samples.md_station Samples.song ∅
                                Samples.store_up).
Proof.
  split; [vm_compute; reflexivity|].
  apply (enabled_false_iff_file_backend Samples.cfg_s3).
  vm_compute; reflexivity.
Defined.

(** ** Calls with the local backend *)

(** C1, as stated, fails: an uploader built for the ["file"] backend, run on
    a file that exists against a store that answers, makes the three store
    calls and removes the source file. *)
Lemma file_backend_still_uploads_and_deletes :
  let w := Samples.world_with Samples.md_station Samples.song ∅
                              Samples.store_up in
  let r := upload_obj Samples.uploader_file Samples.song 1%positive w in
  __init__ Samples.cfg_file = inr Samples.uploader_file
  /\ _storage_backend Samples.uploader_file = "file"
  /\ store_calls (snd r)
     = [S3Connect "" "" ""; S3GetBucket "";
        S3PutObject ""
          "stations/42/00/My-Song_00000000-0000-4000-8000-000000000000.mp3"
          [("filename", "My Song.mp3")] Samples.ten_bytes]
  /\ fs w !! Samples.song = Some Samples.ten_bytes
  /\ fs (snd r) !! Samples.song = None.
Proof. vm_compute. repeat split; reflexivity. Qed.

(** C1, amended: an uploader built for the ["file"] backend runs
    [upload_obj] like any other, with the empty host, credentials and
    bucket name the constructor gave it. When the dictionary holds a
    [file_prefix] the call opens the store connection; when it returns it
    has written the object, it has removed the source file unless the file
    system refused, and the caller's dictionary holds the resource id of the
    usual form together with ["file"] as [storage_backend]. *)
Theorem file_backend_runs_like_any_other
        (cfg : config) (self : CloudStorageUploader) (audio_file_path : string)
        (metadata : loc) (w : world) (m : gmap string pyval) (fp : pyval)
        (r : exn + loc) (w' : world) :
  __init__ cfg = inr self ->
  _storage_backend self = "file" ->
  heap w !! metadata = Some m ->
  m !! "file_prefix" = Some fp ->
  upload_obj self audio_file_path metadata w = (r, w') ->
  (exists rest, trace w' = trace w ++ S3Connect "" "" "" :: rest)
  /\ (forall d, r = inr d ->
        d = metadata
        /\ (exists content,
              In (S3PutObject ""
                    (resource_id_of audio_file_path fp (next_unique_id w))
                    [("filename", OsPath.basename audio_file_path)] content)
                 (trace w'))
        /\ (audio_file_path ∉ fs_protected w -> fs w' !! audio_file_path = None)
        /\ exists m',
             heap w' !! metadata = Some m'
             /\ m' !! "resource_id"
                = Some (VStr (resource_id_of audio_file_path fp
                                             (next_unique_id w)))
             /\ m' !! "storage_backend" = Some (VStr "file")).
Proof.
  intros Hinit Hfile H Hp Hrun.
  destruct (init_file_fields _ _ Hinit Hfile) as (Hh & Hb & Hk & Hs).
  split.
  - destruct (run_opens_connection _ _ _ _ _ _ _ _ H Hp Hrun) as [rest E].
    exists rest. now rewrite Hh, Hk, Hs in E.
  - intros d ->.
    apply run_returns_inv in Hrun
      as (-> & m0 & fp0 & content & H0 & Hp0 & _ & _ & Hf & _ & ->).
    assert (m0 = m) by congruence. subst m0.
    assert (fp0 = fp) by congruence. subst fp0.
    split; [reflexivity|]. split; [|split].
    + exists content. unfold uploaded. cbn [trace]. rewrite Hb.
      apply in_or_app. right. apply in_or_app. left.
      right. right. left. reflexivity.
    + intros Hnp. unfold uploaded. cbn.
      rewrite bool_decide_eq_false_2 by assumption.
      apply lookup_delete_eq.
    + eexists. split; [apply uploaded_heap|].
      rewrite augmented_resource_id, augmented_storage_backend, Hfile.
      split; reflexivity.
Qed.

Lemma file_backend_runs_like_any_other_witness :
  let w := Samples.world_with Samples.md_station Samples.song ∅
                              Samples.store_up in
  let run := upload_obj Samples.uploader_file Samples.song 1%positive w in
  (__init__ Samples.cfg_file = inr Samples.uploader_file
   /\ _storage_backend Samples.uploader_file = "file"
   /\ heap w !! 1%positive = Some Samples.md_station
   /\ Samples.md_station !! "file_prefix" = Some (VStr "stations/42"))
  /\ (exists rest, trace (snd run) = trace w ++ S3Connect "" "" "" :: rest)
  /\ (forall d, fst run = inr d ->
        d = 1%positive
        /\ (exists content,
              In (S3PutObject ""
                    (resource_id_of Samples.song (VStr "stations/42")
                                    (next_unique_id w))
                    [("filename", OsPath.basename Samples.song)] content)
                 (trace (snd run)))
        /\ (Samples.song ∉ fs_protected w -> fs (snd run) !! Samples.song = None)
        /\ exists m',
             heap (snd run) !! 1%positive = Some m'
             /\ m' !! "resource_id"
                = Some (VStr (resource_id_of Samples.song (VStr "stations/42")
                                             (next_unique_id w)))
             /\ m' !! "storage_backend" = Some (VStr "file")).
Proof.
  intros w run. split.
  - repeat split; vm_compute; reflexivity.
  - apply (file_backend_runs_like_any_other Samples.cfg_file
             Samples.uploader_file Samples.song 1%positive w
             Samples.md_station (VStr "stations/42") (fst run) (snd run)).
    + vm_compute; reflexivity.
    + reflexivity.
    + vm_compute; reflexivity.
    + vm_compute; reflexivity.
    + subst run. apply surjective_pairing.
Defined.

(** ** Calls that fail *)

(** C3, as stated, fails: with no [file_prefix] in the dictionary the call
    ends with the [KeyError] of the subscript, which is not an
    [InvalidRequestError]. *)
Lemma missing_prefix_raises_KeyError :
  let w := Samples.world_with Samples.md_no_prefix Samples.song ∅
                              Samples.store_up in
  Samples.md_no_prefix !! "file_prefix" = None
  /\ fst (upload_obj Samples.uploader_s3 Samples.song 1%positive w)
     = inl (KeyError "file_prefix")
  /\ fst (upload_obj Samples.uploader_s3 Samples.song 1%positive w)
     <> inl InvalidRequestError.
Proof. vm_compute. repeat split; try reflexivity; discriminate. Qed.

(** C3, amended: a call whose dictionary has no [file_prefix] key ends with
    [KeyError "file_prefix"], and it does so before anything reaches the
    object store: the trace, the file system and the heap are as they were. *)
Theorem missing_prefix_fails_before_store
        (self : CloudStorageUploader) (audio_file_path : string)
        (metadata : loc) (w : world) (m : gmap string pyval) :
  heap w !! metadata = Some m ->
  m !! "file_prefix" = None ->
  exists w',
    upload_obj self audio_file_path metadata w
    = (inl (KeyError "file_prefix"), w')
    /\ trace w' = trace w
    /\ store_calls w' = store_calls w
    /\ fs w' = fs w
    /\ heap w' = heap w.
Proof.
  intros H Hp. eexists. split; [exact (run_no_prefix _ _ _ _ m H Hp)|].
  repeat split.
Qed.

Lemma missing_prefix_fails_before_store_witness :
  let w := Samples.world_with Samples.md_no_prefix Samples.song ∅
                              Samples.store_up in
  (heap w !! 1%positive = Some Samples.md_no_prefix
   /\ Samples.md_no_prefix !! "file_prefix" = None)
  /\ exists w',
       upload_obj Samples.uploader_s3 Samples.song 1%positive w
       = (inl (KeyError "file_prefix"), w')
       /\ trace w' = trace w
       /\ store_calls w' = store_calls w
       /\ fs w' = fs w
       /\ heap w' = heap w.
Proof.
  intros w. split.
  - split; vm_compute; reflexivity.
  - apply (missing_prefix_fails_before_store Samples.uploader_s3 Samples.song
             1%positive w Samples.md_no_prefix); vm_compute; reflexivity.
Defined.

(** C4, as stated, fails: when the store rejects the write, the call ends
    with the store's own exception, not with an [UploadError] around it. *)
Lemma store_failure_is_not_wrapped :
  let w := Samples.world_with Samples.md_station Samples.song ∅
                              Samples.store_rejecting_put in
  let r := upload_obj Samples.uploader_s3 Samples.song 1%positive w in
  on_put (s3 w) "airtime"
         "stations/42/00/My-Song_00000000-0000-4000-8000-000000000000.mp3"
  = Some (StoreError "503 Service Unavailable")
  /\ fst r = inl (StoreError "503 Service Unavailable")
  /\ fst r <> inl (UploadError (StoreError "503 Service Unavailable")).
Proof. vm_compute. repeat split; try reflexivity; discriminate. Qed.

(** C4, amended: when the store connection, the bucket lookup or the object
    write fails with an exception [e], the call ends with [e] itself, the
    source file is not removed, and the caller's dictionary is neither
    returned nor changed. *)
Theorem store_failure_propagates_unchanged
        (self : CloudStorageUploader) (audio_file_path : string)
        (metadata : loc) (w : world) (m : gmap string pyval) (fp : pyval)
        (e : exn) :
  heap w !! metadata = Some m ->
  m !! "file_prefix" = Some fp ->
  store_fails self audio_file_path fp w e ->
  exists w',
    upload_obj self audio_file_path metadata w = (inl e, w')
    /\ fs w' = fs w
    /\ heap w' = heap w.
Proof.
  intros H Hp [Hc | [[Hc Hb] | (Hc & Hb & [content Hf] & He)]].
  - eexists. split; [exact (run_connect_fails _ _ _ _ m fp e H Hp Hc)|].
    split; reflexivity.
  - eexists. split; [exact (run_get_bucket_fails _ _ _ _ m fp e H Hp Hc Hb)|].
    split; reflexivity.
  - eexists.
    split; [exact (run_put_fails _ _ _ _ m fp content e H Hp Hc Hb Hf He)|].
    split; reflexivity.
Qed.

Lemma store_failure_propagates_unchanged_witness :
  let w := Samples.world_with Samples.md_station Samples.song ∅
                              Samples.store_rejecting_put in
  (heap w !! 1%positive = Some Samples.md_station
   /\ Samples.md_station !! "file_prefix" = Some (VStr "stations/42")
   /\ store_fails Samples.uploader_s3 Samples.song (VStr "stations/42") w
                  (StoreError "503 Service Unavailable"))
  /\ exists w',
       upload_obj Samples.uploader_s3 Samples.song 1%positive w
       = (inl (StoreError "503 Service Unavailable"), w')
       /\ fs w' = fs w
       /\ heap w' = heap w.
Proof.
  intros w.
  assert (Hs : store_fails Samples.uploader_s3 Samples.song
                 (VStr "stations/42") w
                 (StoreError "503 Service Unavailable")).
  { right. right. repeat split; try reflexivity.
    exists Samples.ten_bytes. vm_compute; reflexivity. }
  split.
  - repeat split; try (vm_compute; reflexivity). exact Hs.
  - apply (store_failure_propagates_unchanged Samples.uploader_s3 Samples.song
             1%positive w Samples.md_station (VStr "stations/42")).
    + vm_compute; reflexivity.
    + vm_compute; reflexivity.
    + exact Hs.
Defined.

(** ** Calls that return *)

(** C8: when the three store operations succeed and removing the source
    file then fails, the call still returns; the failure is logged, the file
    stays, and the caller's dictionary holds [filesize], [filename],
    [resource_id] and [storage_backend]. *)
Theorem failed_delete_is_swallowed
        (self : CloudStorageUploader) (audio_file_path : string)
        (metadata : loc) (w : world) (m : gmap string pyval) (fp : pyval)
        (content : list Byte.byte) (e : exn) :
  heap w !! metadata = Some m ->
  m !! "file_prefix" = Some fp ->
  on_connect (s3 w) (_api_key self) (_api_key_secret self) (_host self)
  = None ->
  on_get_bucket (s3 w) (_bucket self) = None ->
  fs w !! audio_file_path = Some content ->
  on_put (s3 w) (_bucket self)
         (resource_id_of audio_file_path fp (next_unique_id w)) = None ->
  fst (remove audio_file_path w) = inl e ->
  exists w' m',
    upload_obj self audio_file_path metadata w = (inr metadata, w')
    /\ heap w' !! metadata = Some m'
    /\ m' !! "filesize" = Some (VInt (Z.of_nat (length content)))
    /\ m' !! "filename" = Some (VStr (OsPath.basename audio_file_path))
    /\ m' !! "resource_id"
       = Some (VStr (resource_id_of audio_file_path fp (next_unique_id w)))
    /\ m' !! "storage_backend" = Some (VStr (_storage_backend self))
    /\ trace w'
       = trace w
           ++ [S3Connect (_api_key self) (_api_key_secret self) (_host self);
               S3GetBucket (_bucket self);
               S3PutObject (_bucket self)
                 (resource_id_of audio_file_path fp (next_unique_id w))
                 [("filename", OsPath.basename audio_file_path)] content;
               LogInfo ("Could not remove " +:+ audio_file_path
                        +:+ " from organize directory")]
    /\ fs w' = fs w.
Proof.
  intros H Hp Hc Hb Hf He Hrm.
  assert (Hprot : audio_file_path ∈ fs_protected w).
  { unfold remove in Hrm. rewrite Hf in Hrm.
    destruct (decide (audio_file_path ∈ fs_protected w)); [assumption|].
    discriminate Hrm. }
  eexists. eexists.
  split; [exact (run_returns _ _ _ _ m fp content H Hp Hc Hb Hf He)|].
  split; [apply uploaded_heap|].
  rewrite augmented_filesize, augmented_filename, augmented_resource_id,
    augmented_storage_backend.
  unfold uploaded. cbn [trace fs].
  rewrite bool_decide_eq_true_2 by assumption.
  repeat split.
Qed.

Lemma failed_delete_is_swallowed_witness :
  let w := Samples.world_with Samples.md_station Samples.song
                              {[ Samples.song ]} Samples.store_up in
  let rid := resource_id_of Samples.song (VStr "stations/42")
                            (next_unique_id w) in
  (heap w !! 1%positive = Some Samples.md_station
   /\ Samples.md_station !! "file_prefix" = Some (VStr "stations/42")
   /\ fs w !! Samples.song = Some Samples.ten_bytes
   /\ fst (remove Samples.song w) = inl (OSError Samples.song))
  /\ exists w' m',
       upload_obj Samples.uploader_s3 Samples.song 1%positive w
       = (inr 1%positive, w')
       /\ heap w' !! 1%positive = Some m'
       /\ m' !! "filesize" = Some (VInt 10)
       /\ m' !! "filename" = Some (VStr (OsPath.basename Samples.song))
       /\ m' !! "resource_id" = Some (VStr rid)
       /\ m' !! "storage_backend" = Some (VStr "amazon_S3")
       /\ trace w'
          = trace w
              ++ [S3Connect "AK" "SK" "s3.example.org";
                  S3GetBucket "airtime";
                  S3PutObject "airtime" rid
                    [("filename", OsPath.basename Samples.song)]
                    Samples.ten_bytes;
                  LogInfo ("Could not remove " +:+ Samples.song
                           +:+ " from organize directory")]
       /\ fs w' = fs w.
Proof.
  intros w rid. split.
  - repeat split; vm_compute; reflexivity.
  - apply (failed_delete_is_swallowed Samples.uploader_s3 Samples.song
             1%positive w Samples.md_station (VStr "stations/42")
             Samples.ten_bytes (OSError Samples.song));
      vm_compute; reflexivity.
Defined.

(** C9: a call that returns hands back the address of the dictionary the
    caller passed in; that dictionary has been updated in place, every key
    other than [filesize], [filename], [resource_id] and [storage_backend]
    still maps to what it mapped to, and no other dictionary changed. *)
Theorem upload_returns_the_callers_dict
        (self : CloudStorageUploader) (audio_file_path : string)
        (metadata : loc) (w : world) (r : loc) (w' : world) :
  upload_obj self audio_file_path metadata w = (inr r, w') ->
  r = metadata
  /\ exists m m',
       heap w !! metadata = Some m
       /\ heap w' !! metadata = Some m'
       /\ (forall k, ~ In k assigned_keys -> m' !! k = m !! k)
       /\ (forall k, In k assigned_keys -> is_Some (m' !! k))
       /\ (forall l, l <> metadata -> heap w' !! l = heap w !! l).
Proof.
  intros Hrun.
  apply run_returns_inv in Hrun
    as (-> & m & fp & content & H & _ & _ & _ & _ & _ & ->).
  split; [reflexivity|].
  exists m. eexists. split; [exact H|]. split; [apply uploaded_heap|].
  split; [|split].
  - intros k Hk. apply augmented_other; intros ->; apply Hk; cbn; tauto.
  - intros k [<-|[<-|[<-|[<-|[]]]]].
    + rewrite augmented_filesize. eauto.
    + rewrite augmented_filename. eauto.
    + rewrite augmented_resource_id. eauto.
    + rewrite augmented_storage_backend. eauto.
  - intros l Hl. unfold uploaded. cbn [heap].
    now apply lookup_insert_ne.
Qed.

Lemma upload_returns_the_callers_dict_witness :
  let w := Samples.world_with Samples.md_station Samples.song ∅
                              Samples.store_up in
  let run := upload_obj Samples.uploader_s3 Samples.song 1%positive w in
  run = (inr 1%positive, snd run)
  /\ (1%positive = 1%positive
      /\ exists m m',
           heap w !! 1%positive = Some m
           /\ heap (snd run) !! 1%positive = Some m'
           /\ (forall k, ~ In k assigned_keys -> m' !! k = m !! k)
           /\ (forall k, In k assigned_keys -> is_Some (m' !! k))
           /\ (forall l, l <> 1%positive ->
                 heap (snd run) !! l = heap w !! l)).
Proof.
  intros w run.
  assert (Hrun : run = (inr 1%positive, snd run))
    by (vm_compute; reflexivity).
  split; [exact Hrun|].
  exact (upload_returns_the_callers_dict Samples.uploader_s3 Samples.song
           1%positive w 1%positive (snd run) Hrun).
Defined.

(** ** The resource id *)

Lemma rfind_lower_bound (c : ascii) (s : string) : -1 <= PyStr.rfind c s.
Proof.
  induction s as [|a s IH]; cbn; [lia|].
  destruct (Z.leb_spec 0 (PyStr.rfind c s)); [lia|].
  destruct (Ascii.eqb a c); lia.
Qed.

(** The extension [os.path.splitext] returns is empty, or it is the part of
    the name from its last dot onward. *)
Lemma splitext_extension_cases (b : string) :
  snd (OsPath.splitext b) = ""
  \/ snd (OsPath.splitext b) = extension_from_last_dot b.
Proof.
  unfold OsPath.splitext, OsPath._splitext, extension_from_last_dot.
  destruct (Z.ltb_spec (PyStr.rfind "/" b) (PyStr.rfind "." b)) as [Hlt|Hge].
  - destruct (OsPath.splitext_loop _ _ _ _ _) as [r|] eqn:E.
    + apply OsPathFacts.splitext_loop_some in E. subst r. right. cbn.
      assert (Hb := rfind_lower_bound "/" b).
      destruct (Z.leb_spec 0 (PyStr.rfind "." b)); [reflexivity | lia].
    + left. cbn. apply OsPathFacts.slice_to_zero.
  - left. cbn. apply OsPathFacts.slice_to_zero.
Qed.

Lemma next_unique_id_length (w : world) :
  String.length (next_unique_id w) = 36%nat.
Proof. apply UuidTextFacts.UUID_str_length, UuidFacts.UUID_v4_range. Qed.

(** C5: in every call that returns, the resource id, which is both the key
    of the object written to the store and the value recorded in the
    caller's dictionary, is [<file_prefix>/<suffix>/<stem>_<token><extension>],
    where the stem is the sanitized stem of the base filename, the token is
    the text of the UUID drawn by the call, and the suffix consists of the
    last two characters of that same token. *)
Theorem resource_id_form_and_suffix
        (self : CloudStorageUploader) (audio_file_path : string)
        (metadata : loc) (w : world) (r : loc) (w' : world) :
  upload_obj self audio_file_path metadata w = (inr r, w') ->
  let token := next_unique_id w in
  let stem := fst (OsPath.splitext (OsPath.basename audio_file_path)) in
  let extension := snd (OsPath.splitext (OsPath.basename audio_file_path)) in
  exists m fp m' suffix front content,
    let rid := py_str fp +:+ "/" +:+ suffix +:+ "/"
                 +:+ PyStr.replace " " "-" stem +:+ "_" +:+ token
                 +:+ extension in
    heap w !! metadata = Some m
    /\ m !! "file_prefix" = Some fp
    /\ heap w' !! r = Some m'
    /\ m' !! "resource_id" = Some (VStr rid)
    /\ In (S3PutObject (_bucket self) rid
            [("filename", OsPath.basename audio_file_path)] content)
          (trace w')
    /\ String.length suffix = 2%nat
    /\ token = front +:+ suffix.
Proof.
  intros Hrun token stem extension.
  apply run_returns_inv in Hrun
    as (-> & m & fp & content & H & Hp & _ & _ & _ & _ & ->).
  exists m, fp. eexists.
  exists (PyStr.slice_from (-2) token),
         (PyStr.str_take (String.length token - 2) token), content.
  cbv zeta.
  split; [exact H|]. split; [exact Hp|]. split; [apply uploaded_heap|].
  split; [|split; [|split]].
  - rewrite augmented_resource_id, resource_id_of_eq. reflexivity.
  - unfold uploaded. cbn [trace]. rewrite resource_id_of_eq.
    apply in_or_app. right. apply in_or_app. left.
    right. right. left. reflexivity.
  - rewrite PyStrFacts.last_two_length. unfold token.
    now rewrite next_unique_id_length.
  - apply PyStrFacts.last_two_split.
Qed.

Lemma resource_id_form_and_suffix_witness :
  let w := Samples.world_with Samples.md_station Samples.song ∅
                              Samples.store_up in
  let run := upload_obj Samples.uploader_s3 Samples.song 1%positive w in
  let token := next_unique_id w in
  let stem := fst (OsPath.splitext (OsPath.basename Samples.song)) in
  let extension := snd (OsPath.splitext (OsPath.basename Samples.song)) in
  run = (inr 1%positive, snd run)
  /\ exists m fp m' suffix front content,
       let rid := py_str fp +:+ "/" +:+ suffix +:+ "/"
                    +:+ PyStr.replace " " "-" stem +:+ "_" +:+ token
                    +:+ extension in
       heap w !! 1%positive = Some m
       /\ m !! "file_prefix" = Some fp
       /\ heap (snd run) !! 1%positive = Some m'
       /\ m' !! "resource_id" = Some (VStr rid)
       /\ In (S3PutObject (_bucket Samples.uploader_s3) rid
               [("filename", OsPath.basename Samples.song)] content)
             (trace (snd run))
       /\ String.length suffix = 2%nat
       /\ token = front +:+ suffix.
Proof.
  intros w run token stem extension.
  assert (Hrun : run = (inr 1%positive, snd run))
    by (vm_compute; reflexivity).
  split; [exact Hrun|].
  exact (resource_id_form_and_suffix Samples.uploader_s3 Samples.song
           1%positive w 1%positive (snd run) Hrun).
Defined.

(** C2, as stated, fails: a space in the caller's [file_prefix] reaches the
    resource id. *)
Lemma space_in_prefix_reaches_resource_id :
  let w := Samples.world_with Samples.md_spaced_prefix Samples.song ∅
                              Samples.store_up in
  let r := upload_obj Samples.uploader_s3 Samples.song 1%positive w in
  let rid := "my station/00/My-Song_00000000-0000-4000-8000-000000000000.mp3" in
  fst r = inr 1%positive
  /\ (heap (snd r) !! 1%positive) ≫= (fun m => m !! "resource_id")
     = Some (VStr rid)
  /\ PyStr.count " " rid = 1%nat.
Proof. vm_compute. repeat split; reflexivity. Qed.

(** C2, amended: in every call that returns, the resource id ends with the
    extension of the source filename, unchanged; and when neither the text
    of [file_prefix] nor that extension contains a space, the resource id
    contains no space. *)
Theorem resource_id_spaces_and_extension
        (self : CloudStorageUploader) (audio_file_path : string)
        (metadata : loc) (w : world) (r : loc) (w' : world) :
  upload_obj self audio_file_path metadata w = (inr r, w') ->
  let extension := snd (OsPath.splitext (OsPath.basename audio_file_path)) in
  exists m fp m' rid,
    heap w !! metadata = Some m
    /\ m !! "file_prefix" = Some fp
    /\ heap w' !! r = Some m'
    /\ m' !! "resource_id" = Some (VStr rid)
    /\ PyStr.endswith rid extension = true
    /\ (PyStr.count " " (py_str fp) = O ->
        PyStr.count " " extension = O ->
        PyStr.count " " rid = O).
Proof.
  intros Hrun extension.
  apply run_returns_inv in Hrun
    as (-> & m & fp & content & H & Hp & _ & _ & _ & _ & ->).
  exists m, fp. eexists. eexists.
  split; [exact H|]. split; [exact Hp|]. split; [apply uploaded_heap|].
  split; [apply augmented_resource_id|]. split.
  - apply resource_id_endswith.
  - intros H1 H2. unfold next_unique_id.
    rewrite resource_id_spaces_uuid. unfold extension in H2. lia.
Qed.

Lemma resource_id_spaces_and_extension_witness :
  let w := Samples.world_with Samples.md_station Samples.song ∅
                              Samples.store_up in
  let run := upload_obj Samples.uploader_s3 Samples.song 1%positive w in
  let extension := snd (OsPath.splitext (OsPath.basename Samples.song)) in
  run = (inr 1%positive, snd run)
  /\ exists m fp m' rid,
       heap w !! 1%positive = Some m
       /\ m !! "file_prefix" = Some fp
       /\ heap (snd run) !! 1%positive = Some m'
       /\ m' !! "resource_id" = Some (VStr rid)
       /\ PyStr.endswith rid extension = true
       /\ (PyStr.count " " (py_str fp) = O ->
           PyStr.count " " extension = O ->
           PyStr.count " " rid = O).
Proof.
  intros w run extension.
  assert (Hrun : run = (inr 1%positive, snd run))
    by (vm_compute; reflexivity).
  split; [exact Hrun|].
  exact (resource_id_spaces_and_extension Samples.uploader_s3 Samples.song
           1%positive w 1%positive (snd run) Hrun).
Defined.

(** C6: for the same path and the same [file_prefix], two version-4 UUIDs
    that differ give resource ids that differ. *)
Theorem distinct_tokens_give_distinct_resource_ids
        (audio_file_path : string) (file_prefix : pyval) (raw1 raw2 : N) :
  Uuid.UUID_v4 raw1 <> Uuid.UUID_v4 raw2 ->
  resource_id_of audio_file_path file_prefix
                 (Uuid.UUID_str (Uuid.UUID_v4 raw1))
  <> resource_id_of audio_file_path file_prefix
                    (Uuid.UUID_str (Uuid.UUID_v4 raw2)).
Proof.
  intros Hne Heq. apply Hne.
  apply resource_id_token_inj in Heq.
  apply UuidTextFacts.UUID_str_inj in Heq;
    [exact Heq | apply UuidFacts.UUID_v4_range | apply UuidFacts.UUID_v4_range].
Qed.

Lemma distinct_tokens_give_distinct_resource_ids_witness :
  Uuid.UUID_v4 0 <> Uuid.UUID_v4 1
  /\ resource_id_of Samples.song (VStr "stations/42")
                    (Uuid.UUID_str (Uuid.UUID_v4 0))
     <> resource_id_of Samples.song (VStr "stations/42")
                       (Uuid.UUID_str (Uuid.UUID_v4 1)).
Proof.
  assert (H : Uuid.UUID_v4 0 <> Uuid.UUID_v4 1)
    by (vm_compute; discriminate).
  split; [exact H|].
  exact (distinct_tokens_give_distinct_resource_ids Samples.song
           (VStr "stations/42") 0 1 H).
Defined.

(** C10, as stated, fails: for the base name [".my file"] the part from the
    last dot onward is the whole name and holds a space, yet
    [os.path.splitext] gives an empty extension, the whole name is the stem,
    and its space is replaced. *)
Lemma space_after_leading_dot_is_replaced :
  let w := Samples.world_with Samples.md_station Samples.hidden_take ∅
                              Samples.store_up in
  let r := upload_obj Samples.uploader_s3 Samples.hidden_take 1%positive w in
  let rid := "stations/42/00/.my-file_00000000-0000-4000-8000-000000000000" in
  extension_from_last_dot (OsPath.basename Samples.hidden_take) = ".my file"
  /\ OsPath.splitext (OsPath.basename Samples.hidden_take) = (".my file", "")
  /\ fst r = inr 1%positive
  /\ (heap (snd r) !! 1%positive) ≫= (fun m => m !! "resource_id")
     = Some (VStr rid)
  /\ PyStr.count " " rid = O
  /\ PyStr.endswith rid ".my file" = false.
Proof. vm_compute. repeat split; reflexivity. Qed.

(** C10, amended: only the stem is sanitized, where stem and extension are
    the two parts [os.path.splitext] returns: the extension is the part of
    the base filename from its last dot onward, or it is empty. In every
    call that returns, the resource id starts with the text of
    [file_prefix] and ends with that extension, both verbatim, the sanitized
    stem holds no space, and the spaces of the resource id are exactly those
    of the prefix and of the extension. *)
Theorem only_the_stem_is_sanitized
        (self : CloudStorageUploader) (audio_file_path : string)
        (metadata : loc) (w : world) (r : loc) (w' : world) :
  upload_obj self audio_file_path metadata w = (inr r, w') ->
  let base := OsPath.basename audio_file_path in
  let stem := fst (OsPath.splitext base) in
  let extension := snd (OsPath.splitext base) in
  exists m fp m' rid,
    heap w !! metadata = Some m
    /\ m !! "file_prefix" = Some fp
    /\ heap w' !! r = Some m'
    /\ m' !! "resource_id" = Some (VStr rid)
    /\ (extension = "" \/ extension = extension_from_last_dot base)
    /\ PyStr.startswith rid (py_str fp) = true
    /\ PyStr.endswith rid extension = true
    /\ PyStr.count " " (PyStr.replace " " "-" stem) = O
    /\ PyStr.count " " rid
       = (PyStr.count " " (py_str fp) + PyStr.count " " extension)%nat.
Proof.
  intros Hrun base stem extension.
  apply run_returns_inv in Hrun
    as (-> & m & fp & content & H & Hp & _ & _ & _ & _ & ->).
  exists m, fp. eexists. eexists.
  split; [exact H|]. split; [exact Hp|]. split; [apply uploaded_heap|].
  split; [apply augmented_resource_id|].
  split; [apply splitext_extension_cases|].
  split; [apply resource_id_startswith|].
  split; [apply resource_id_endswith|].
  split; [apply PyStrFacts.count_replace; discriminate|].
  apply resource_id_spaces_uuid.
Qed.

Lemma only_the_stem_is_sanitized_witness :
  let w := Samples.world_with Samples.md_spaced_prefix Samples.song ∅
                              Samples.store_up in
  let run := upload_obj Samples.uploader_s3 Samples.song 1%positive w in
  let base := OsPath.basename Samples.song in
  let stem := fst (OsPath.splitext base) in
  let extension := snd (OsPath.splitext base) in
  run = (inr 1%positive, snd run)
  /\ exists m fp m' rid,
       heap w !! 1%positive = Some m
       /\ m !! "file_prefix" = Some fp
       /\ heap (snd run) !! 1%positive = Some m'
       /\ m' !! "resource_id" = Some (VStr rid)
       /\ (extension = "" \/ extension = extension_from_last_dot base)
       /\ PyStr.startswith rid (py_str fp) = true
       /\ PyStr.endswith rid extension = true
       /\ PyStr.count " " (PyStr.replace " " "-" stem) = O
       /\ PyStr.count " " rid
          = (PyStr.count " " (py_str fp) + PyStr.count " " extension)%nat.
Proof.
  intros w run base stem extension.
  assert (Hrun : run = (inr 1%positive, snd run))
    by (vm_compute; reflexivity).
  split; [exact Hrun|].
  exact (only_the_stem_is_sanitized Samples.uploader_s3 Samples.song
           1%positive w 1%positive (snd run) Hrun).
Defined.

(** * Further properties *)

(** ** The constructor *)

Lemma config_get_inr (cfg : config) (section option v : string) :
  config_get cfg section option = inr v
  <-> exists opts, cfg !! section = Some opts /\ opts !! option = Some v.
Proof.
  unfold config_get. split.
  - destruct (cfg !! section) as [opts|]; [|discriminate].
    destruct (opts !! option) as [x|] eqn:E; [|discriminate].
    intros [= <-]. now exists opts.
  - intros (opts & -> & ->). reflexivity.
Qed.

(** X1: the constructor returns an uploader exactly when the configuration
    names a current backend and either that backend is ["file"] or the
    section of that name holds all four connection options. *)
Theorem init_succeeds_iff (cfg : config) :
  (exists self, __init__ cfg = inr self)
  <-> exists selector,
        config_get cfg "current_backend" "storage_backend" = inr selector
        /\ (selector = "file"
            \/ exists opts,
                 cfg !! selector = Some opts
                 /\ forall k, In k connection_options -> is_Some (opts !! k)).
Proof.
  unfold __init__, STORAGE_BACKEND_FILE.
  destruct (config_get cfg "current_backend" "storage_backend") as [e|sel].
  { split; [intros [? [=]] | intros (? & [=] & _)]. }
  destruct (String.eqb sel "file") eqn:E.
  { apply String.eqb_eq in E. split; [|eauto].
    intros _. exists sel. auto. }
  apply String.eqb_neq in E. split.
  - intros [self Hs]. exists sel. split; [reflexivity|]. right.
    destruct (config_get cfg sel "host") as [?|h] eqn:Hh; [discriminate|].
    destruct (config_get cfg sel "bucket") as [?|b] eqn:Hb; [discriminate|].
    destruct (config_get cfg sel "api_key") as [?|ak] eqn:Hk; [discriminate|].
    destruct (config_get cfg sel "api_key_secret") as [?|s] eqn:Hsec;
      [discriminate|].
    apply config_get_inr in Hh as (opts & Ho & Hh).
    apply config_get_inr in Hb as (o1 & Ho1 & Hb).
    apply config_get_inr in Hk as (o2 & Ho2 & Hk).
    apply config_get_inr in Hsec as (o3 & Ho3 & Hsec).
    assert (o1 = opts) by congruence. assert (o2 = opts) by congruence.
    assert (o3 = opts) by congruence. subst o1 o2 o3.
    exists opts. split; [exact Ho|].
    intros k [<-|[<-|[<-|[<-|[]]]]]; eauto.
  - intros (sel' & [= <-] & [Hf | (opts & Ho & Hall)]); [contradiction|].
    destruct (Hall "host") as [h Hh]; [cbn; tauto|].
    destruct (Hall "bucket") as [b Hb]; [cbn; tauto|].
    destruct (Hall "api_key") as [k Hk]; [cbn; tauto|].
    destruct (Hall "api_key_secret") as [s Hsec]; [cbn; tauto|].
    unfold config_get. rewrite Ho, Hh, Hb, Hk, Hsec. eauto.
Qed.

(** X2: an uploader the constructor built and for which [enabled] answers
    [false] carries no connection parameters: host, bucket and both keys
    are empty. *)
Theorem disabled_uploader_has_no_connection_parameters
        (cfg : config) (self : CloudStorageUploader) (w : world) :
  __init__ cfg = inr self ->
  fst (enabled self w) = inr false ->
  _host self = "" /\ _bucket self = "" /\ _api_key self = ""
  /\ _api_key_secret self = "".
Proof.
  intros Hinit Hen. apply (init_file_fields cfg self Hinit).
  unfold enabled in Hen.
  destruct (String.eqb (_storage_backend self) "file") eqn:E.
  - now apply String.eqb_eq in E.
  - discriminate Hen.
Qed.

Lemma disabled_uploader_has_no_connection_parameters_witness :
  let w := Samples.world_with Samples.md_station Samples.song ∅
                              Samples.store_up in
  (__init__ Samples.cfg_file = inr Samples.uploader_file
   /\ fst (enabled Samples.uploader_file w) = inr false)
  /\ _host Samples.uploader_file = ""
  /\ _bucket Samples.uploader_file = ""
  /\ _api_key Samples.uploader_file = ""
  /\ _api_key_secret Samples.uploader_file = "".
Proof.
  intros w. split; [split; vm_compute; reflexivity|].
  apply (disabled_uploader_has_no_connection_parameters Samples.cfg_file
           Samples.uploader_file w); vm_compute; reflexivity.
Defined.

Lemma init_reads_section (cfg : config) (self : CloudStorageUploader) :
  __init__ cfg = inr self ->
  _storage_backend self <> "file" ->
  config_get cfg "current_backend" "storage_backend"
  = inr (_storage_backend self)
  /\ config_get cfg (_storage_backend self) "host" = inr (_host self)
  /\ config_get cfg (_storage_backend self) "bucket" = inr (_bucket self)
  /\ config_get cfg (_storage_backend self) "api_key" = inr (_api_key self)
  /\ config_get cfg (_storage_backend self) "api_key_secret"
     = inr (_api_key_secret self).
Proof.
  unfold __init__, STORAGE_BACKEND_FILE.
  destruct (config_get cfg "current_backend" "storage_backend") as [e|sel];
    [discriminate|].
  destruct (String.eqb sel "file") eqn:E.
  { apply String.eqb_eq in E. intros [= <-]. cbn. congruence. }
  destruct (config_get cfg sel "host") as [?|h] eqn:Hh; [discriminate|].
  destruct (config_get cfg sel "bucket") as [?|b] eqn:Hb; [discriminate|].
  destruct (config_get cfg sel "api_key") as [?|k] eqn:Hk; [discriminate|].
  destruct (config_get cfg sel "api_key_secret") as [?|s] eqn:Hsec;
    [discriminate|].
  intros [= <-] _. cbn. auto.
Qed.

(** X3: an uploader the constructor built for a backend other than
    ["file"] holds exactly what the configuration says: its backend name is
    the configured selector, and its host, bucket, key and secret are the
    values of [host], [bucket], [api_key] and [api_key_secret] in the
    section of that name. *)
Theorem enabled_uploader_mirrors_its_section
        (cfg : config) (self : CloudStorageUploader) :
  __init__ cfg = inr self ->
  _storage_backend self <> "file" ->
  exists current opts,
    cfg !! "current_backend" = Some current
    /\ current !! "storage_backend" = Some (_storage_backend self)
    /\ cfg !! _storage_backend self = Some opts
    /\ opts !! "host" = Some (_host self)
    /\ opts !! "bucket" = Some (_bucket self)
    /\ opts !! "api_key" = Some (_api_key self)
    /\ opts !! "api_key_secret" = Some (_api_key_secret self).
Proof.
  intros Hinit Hne.
  destruct (init_reads_section cfg self Hinit Hne)
    as (Hs & Hh & Hb & Hk & Hsec).
  apply config_get_inr in Hs as (current & Hc & Hs).
  apply config_get_inr in Hh as (opts & Ho & Hh).
  apply config_get_inr in Hb as (o1 & Ho1 & Hb).
  apply config_get_inr in Hk as (o2 & Ho2 & Hk).
  apply config_get_inr in Hsec as (o3 & Ho3 & Hsec).
  assert (o1 = opts) by congruence. assert (o2 = opts) by congruence.
  assert (o3 = opts) by congruence. subst o1 o2 o3.
  exists current, opts. repeat split; assumption.
Qed.

Lemma enabled_uploader_mirrors_its_section_witness :
  (__init__ Samples.cfg_s3 = inr Samples.uploader_s3
   /\ _storage_backend Samples.uploader_s3 <> "file")
  /\ exists current opts,
       Samples.cfg_s3 !! "current_backend" = Some current
       /\ current !! "storage_backend"
          = Some (_storage_backend Samples.uploader_s3)
       /\ Samples.cfg_s3 !! _storage_backend Samples.uploader_s3 = Some opts
       /\ opts !! "host" = Some (_host Samples.uploader_s3)
       /\ opts !! "bucket" = Some (_bucket Samples.uploader_s3)
       /\ opts !! "api_key" = Some (_api_key Samples.uploader_s3)
       /\ opts !! "api_key_secret"
          = Some (_api_key_secret Samples.uploader_s3).
Proof.
  assert (H1 : __init__ Samples.cfg_s3 = inr Samples.uploader_s3)
    by (vm_compute; reflexivity).
  assert (H2 : _storage_backend Samples.uploader_s3 <> "file")
    by (cbn; discriminate).
  split; [split; assumption|].
  exact (enabled_uploader_mirrors_its_section Samples.cfg_s3
           Samples.uploader_s3 H1 H2).
Defined.

(** X4: when the selected backend is not ["file"] and the configuration has
    no section of that name, the constructor fails with [NoSectionError] for
    that section. *)
Theorem init_missing_section_fails (cfg : config) (selector : string) :
  config_get cfg "current_backend" "storage_backend" = inr selector ->
  selector <> "file" ->
  cfg !! selector = None ->
  __init__ cfg = inl (NoSectionError selector).
Proof.
  intros Hsel Hne Hnone. unfold __init__, STORAGE_BACKEND_FILE.
  rewrite Hsel. apply String.eqb_neq in Hne. rewrite Hne.
  unfold config_get at 1. now rewrite Hnone.
Qed.

Lemma init_missing_section_fails_witness :
  let cfg := delete "amazon_S3" Samples.cfg_s3 in
  (config_get cfg "current_backend" "storage_backend" = inr "amazon_S3"
   /\ "amazon_S3" <> "file"
   /\ cfg !! "amazon_S3" = None)
  /\ __init__ cfg = inl (NoSectionError "amazon_S3").
Proof.
  intros cfg.
  assert (H1 : config_get cfg "current_backend" "storage_backend"
               = inr "amazon_S3") by (vm_compute; reflexivity).
  assert (H2 : "amazon_S3" <> "file") by discriminate.
  assert (H3 : cfg !! "amazon_S3" = None) by (vm_compute; reflexivity).
  split; [repeat split; assumption|].
  exact (init_missing_section_fails cfg "amazon_S3" H1 H2 H3).
Defined.

(** X5: when the selected section exists and lacks some of the four
    connection options, the constructor fails with [NoOptionError] for the
    first missing one in the order host, bucket, api_key, api_key_secret. *)
Theorem init_reports_first_missing_option
        (cfg : config) (selector : string) (opts : gmap string string)
        (k : string) :
  config_get cfg "current_backend" "storage_backend" = inr selector ->
  selector <> "file" ->
  cfg !! selector = Some opts ->
  List.find (fun o => bool_decide (opts !! o = None)) connection_options
  = Some k ->
  __init__ cfg = inl (NoOptionError k selector).
Proof.
  intros Hsel Hne Ho Hfind. unfold __init__, STORAGE_BACKEND_FILE.
  rewrite Hsel. apply String.eqb_neq in Hne. rewrite Hne.
  unfold config_get. rewrite Ho.
  unfold connection_options in Hfind. cbn [List.find] in Hfind.
  repeat match type of Hfind with
         | context [bool_decide (opts !! ?o = None)] =>
             destruct (opts !! o) eqn:?;
             [rewrite bool_decide_eq_false_2 in Hfind by discriminate
             |rewrite bool_decide_eq_true_2 in Hfind by reflexivity;
              now injection Hfind as <-]
         end.
  discriminate Hfind.
Qed.

Lemma init_reports_first_missing_option_witness :
  let opts : gmap string string :=
    {[ "host" := "s3.example.org"; "api_key_secret" := "SK" ]} in
  let cfg : config :=
    {[ "current_backend" := {[ "storage_backend" := "amazon_S3" ]};
       "amazon_S3" := opts ]} in
  (config_get cfg "current_backend" "storage_backend" = inr "amazon_S3"
   /\ "amazon_S3" <> "file"
   /\ cfg !! "amazon_S3" = Some opts
   /\ List.find (fun o => bool_decide (opts !! o = None)) connection_options
      = Some "bucket")
  /\ __init__ cfg = inl (NoOptionError "bucket" "amazon_S3").
Proof.
  intros opts cfg.
  assert (H1 : config_get cfg "current_backend" "storage_backend"
               = inr "amazon_S3") by (vm_compute; reflexivity).
  assert (H2 : "amazon_S3" <> "file") by discriminate.
  assert (H3 : cfg !! "amazon_S3" = Some opts) by (vm_compute; reflexivity).
  assert (H4 : List.find (fun o => bool_decide (opts !! o = None))
                         connection_options = Some "bucket")
    by (vm_compute; reflexivity).
  split; [repeat split; assumption|].
  exact (init_reports_first_missing_option cfg "amazon_S3" opts "bucket"
           H1 H2 H3 H4).
Defined.

(** ** Every way a call can go *)

(** Case analysis over the runs of [upload_obj]: a property holds of the
    outcome of a call as soon as it holds of the outcome of each of the
    seven ways the call can go. *)
Lemma upload_obj_cases
      (self : CloudStorageUploader) (p : string) (md : loc) (w : world)
      (P : (exn + loc) * world -> Prop) :
  let connect :=
    on_connect (s3 w) (_api_key self) (_api_key_secret self) (_host self) in
  let lookup := on_get_bucket (s3 w) (_bucket self) in
  let w1 := set_drawn (S (drawn w)) w in
  let w2 :=
    emit (S3Connect (_api_key self) (_api_key_secret self) (_host self)) w1 in
  let w3 := emit (S3GetBucket (_bucket self)) w2 in
  (heap w !! md = None -> P (inl (KeyError "file_prefix"), w1)) ->
  (forall m, heap w !! md = Some m -> m !! "file_prefix" = None ->
             P (inl (KeyError "file_prefix"), w1)) ->
  (forall m fp e, heap w !! md = Some m -> m !! "file_prefix" = Some fp ->
                  connect = Some e -> P (inl e, w2)) ->
  (forall m fp e, heap w !! md = Some m -> m !! "file_prefix" = Some fp ->
                  connect = None -> lookup = Some e -> P (inl e, w3)) ->
  (forall m fp, heap w !! md = Some m -> m !! "file_prefix" = Some fp ->
                connect = None -> lookup = None -> fs w !! p = None ->
                P (inl (IOError p), w3)) ->
  (forall m fp content e,
      heap w !! md = Some m -> m !! "file_prefix" = Some fp ->
      connect = None -> lookup = None -> fs w !! p = Some content ->
      on_put (s3 w) (_bucket self) (resource_id_of p fp (next_unique_id w))
      = Some e ->
      P (inl e,
         emit (S3PutObject (_bucket self)
                 (resource_id_of p fp (next_unique_id w))
                 [("filename", OsPath.basename p)] content) w3)) ->
  (forall m fp content,
      heap w !! md = Some m -> m !! "file_prefix" = Some fp ->
      connect = None -> lookup = None -> fs w !! p = Some content ->
      on_put (s3 w) (_bucket self) (resource_id_of p fp (next_unique_id w))
      = None ->
      P (inr md, uploaded self p md m fp content w)) ->
  P (upload_obj self p md w).
Proof.
  intros connect lookup w1 w2 w3 C1 C2 C3 C4 C5 C6 C7.
  destruct (heap w !! md) as [m|] eqn:H;
    [|rewrite run_no_dict by assumption; now apply C1].
  destruct (m !! "file_prefix") as [fp|] eqn:Hp;
    [|rewrite (run_no_prefix _ _ _ _ m) by assumption; now apply (C2 m)].
  destruct connect as [e|] eqn:Hc;
    [rewrite (run_connect_fails _ _ _ _ m fp e) by assumption;
     now apply (C3 m fp e)|].
  destruct lookup as [e|] eqn:Hb;
    [rewrite (run_get_bucket_fails _ _ _ _ m fp e) by assumption;
     now apply (C4 m fp e)|].
  destruct (fs w !! p) as [content|] eqn:Hf;
    [|rewrite (run_file_missing _ _ _ _ m fp) by assumption;
      now apply (C5 m fp)].
  destruct (on_put (s3 w) (_bucket self)
              (resource_id_of p fp (next_unique_id w))) as [e|] eqn:He;
    [rewrite (run_put_fails _ _ _ _ m fp content e) by assumption;
     now apply (C6 m fp content e)|].
  rewrite (run_returns _ _ _ _ m fp content) by assumption.
  now apply (C7 m fp content).
Qed.

(** ** Calls that raise *)

(** X6: a call that raises, whatever the exception, has changed neither the
    file system nor any dictionary, and has logged nothing. *)
Theorem raising_call_changes_nothing
        (self : CloudStorageUploader) (audio_file_path : string)
        (metadata : loc) (w : world) (e : exn) (w' : world) :
  upload_obj self audio_file_path metadata w = (inl e, w') ->
  fs w' = fs w
  /\ heap w' = heap w
  /\ filter (fun ev => is_store_event ev = false) (trace w')
     = filter (fun ev => is_store_event ev = false) (trace w).
Proof.
  revert e w'.
  apply (upload_obj_cases self audio_file_path metadata w
           (fun out => forall e w', out = (inl e, w') -> _));
    intros; try discriminate;
    match goal with H : (_, _) = (_, _) |- _ => injection H as <- <- end;
    repeat split; cbn [trace emit set_drawn];
    rewrite ?filter_app; cbn; now rewrite ?app_nil_r.
Qed.

Lemma raising_call_changes_nothing_witness :
  let w := Samples.world_with Samples.md_station Samples.song ∅
                              Samples.store_rejecting_put in
  let run := upload_obj Samples.uploader_s3 Samples.song 1%positive w in
  run = (inl (StoreError "503 Service Unavailable"), snd run)
  /\ fs (snd run) = fs w
  /\ heap (snd run) = heap w
  /\ filter (fun ev => is_store_event ev = false) (trace (snd run))
     = filter (fun ev => is_store_event ev = false) (trace w).
Proof.
  intros w run.
  assert (Hrun : run = (inl (StoreError "503 Service Unavailable"), snd run))
    by (vm_compute; reflexivity).
  split; [exact Hrun|].
  exact (raising_call_changes_nothing Samples.uploader_s3 Samples.song
           1%positive w _ (snd run) Hrun).
Defined.

(** X7: the source file is looked for only at the write. When it is
    missing, the call has already opened the connection and fetched the
    bucket; it then fails with [IOError], writes no object, and leaves the
    dictionary as it was. *)
Theorem missing_source_file_fails_after_bucket_lookup
        (self : CloudStorageUploader) (audio_file_path : string)
        (metadata : loc) (w : world) (m : gmap string pyval) (fp : pyval) :
  heap w !! metadata = Some m ->
  m !! "file_prefix" = Some fp ->
  on_connect (s3 w) (_api_key self) (_api_key_secret self) (_host self)
  = None ->
  on_get_bucket (s3 w) (_bucket self) = None ->
  fs w !! audio_file_path = None ->
  exists w',
    upload_obj self audio_file_path metadata w
    = (inl (IOError audio_file_path), w')
    /\ trace w'
       = trace w
           ++ [S3Connect (_api_key self) (_api_key_secret self) (_host self);
               S3GetBucket (_bucket self)]
    /\ heap w' = heap w
    /\ fs w' = fs w.
Proof.
  intros H Hp Hc Hb Hf. eexists.
  split; [exact (run_file_missing _ _ _ _ m fp H Hp Hc Hb Hf)|].
  cbn. rewrite <- List.app_assoc. repeat split.
Qed.

Lemma missing_source_file_fails_after_bucket_lookup_witness :
  let w := Samples.world_with Samples.md_station Samples.song ∅
                              Samples.store_up in
  let gone := "/srv/organize/gone.mp3" in
  (heap w !! 1%positive = Some Samples.md_station
   /\ Samples.md_station !! "file_prefix" = Some (VStr "stations/42")
   /\ fs w !! gone = None)
  /\ exists w',
       upload_obj Samples.uploader_s3 gone 1%positive w
       = (inl (IOError gone), w')
       /\ trace w'
          = trace w
              ++ [S3Connect "AK" "SK" "s3.example.org"; S3GetBucket "airtime"]
       /\ heap w' = heap w
       /\ fs w' = fs w.
Proof.
  intros w gone. split; [repeat split; vm_compute; reflexivity|].
  apply (missing_source_file_fails_after_bucket_lookup Samples.uploader_s3
           gone 1%positive w Samples.md_station (VStr "stations/42"));
    vm_compute; reflexivity.
Defined.

(** X8: what a call adds to the trace is an initial part of: connect, get
    the bucket, put the object, log the failed removal. So the store is
    never contacted again after a failure, at most one object is written,
    and nothing is logged unless the object was written. *)
Theorem call_events_in_order
        (self : CloudStorageUploader) (audio_file_path : string)
        (metadata : loc) (w : world) (m : gmap string pyval) (fp : pyval) :
  heap w !! metadata = Some m ->
  m !! "file_prefix" = Some fp ->
  exists added,
    trace (snd (upload_obj self audio_file_path metadata w))
    = trace w ++ added
    /\ added `prefix_of`
         call_events self audio_file_path fp
                     (default [] (fs w !! audio_file_path)) w.
Proof.
  intros H Hp.
  apply (upload_obj_cases self audio_file_path metadata w
           (fun out => exists added, trace (snd out) = trace w ++ added /\ _));
    intros; try congruence;
    repeat match goal with
           | A : heap w !! metadata = Some ?x |- _ =>
               rewrite H in A; injection A as <-
           | A : m !! "file_prefix" = Some ?x |- _ =>
               rewrite Hp in A; injection A as <-
           end; unfold call_events.
  - eexists. split; [cbn; reflexivity|]. now eexists.
  - eexists. split; [cbn; rewrite <- List.app_assoc; reflexivity|].
    now eexists.
  - eexists. split; [cbn; rewrite <- List.app_assoc; reflexivity|].
    now eexists.
  - match goal with A : fs w !! _ = Some _ |- _ => rewrite A end.
    eexists. split; [cbn; rewrite <- !List.app_assoc; reflexivity|].
    now eexists.
  - match goal with A : fs w !! _ = Some _ |- _ => rewrite A end.
    unfold uploaded. cbn [snd trace default].
    destruct (bool_decide _).
    + eexists. split; [reflexivity|]. exists []. cbn. reflexivity.
    + eexists. split; [reflexivity|]. eexists. cbn. reflexivity.
Qed.

Lemma call_events_in_order_witness :
  let w := Samples.world_with Samples.md_station Samples.song ∅
                              Samples.store_rejecting_put in
  (heap w !! 1%positive = Some Samples.md_station
   /\ Samples.md_station !! "file_prefix" = Some (VStr "stations/42"))
  /\ exists added,
       trace (snd (upload_obj Samples.uploader_s3 Samples.song 1%positive w))
       = trace w ++ added
       /\ added `prefix_of`
            call_events Samples.uploader_s3 Samples.song (VStr "stations/42")
                        (default [] (fs w !! Samples.song)) w.
Proof.
  intros w. split; [split; vm_compute; reflexivity|].
  apply (call_events_in_order Samples.uploader_s3 Samples.song 1%positive w
           Samples.md_station (VStr "stations/42")); vm_compute; reflexivity.
Defined.

(** ** Calls that return: what is uploaded, recorded and removed *)

(** X9: in a call that returns, the object written to the store holds the
    bytes of the source file and carries one metadata entry, [filename],
    with the unsanitized base name; the caller's dictionary records the
    number of those bytes as [filesize], the same base name as [filename]
    and the backend name as [storage_backend], whatever it held under these
    keys before. *)
Theorem upload_records_what_it_sent
        (self : CloudStorageUploader) (audio_file_path : string)
        (metadata : loc) (w : world) (r : loc) (w' : world) :
  upload_obj self audio_file_path metadata w = (inr r, w') ->
  exists content rid m',
    fs w !! audio_file_path = Some content
    /\ In (S3PutObject (_bucket self) rid
             [("filename", OsPath.basename audio_file_path)] content)
          (trace w')
    /\ heap w' !! r = Some m'
    /\ m' !! "resource_id" = Some (VStr rid)
    /\ m' !! "filesize" = Some (VInt (Z.of_nat (length content)))
    /\ m' !! "filename" = Some (VStr (OsPath.basename audio_file_path))
    /\ m' !! "storage_backend" = Some (VStr (_storage_backend self)).
Proof.
  intros Hrun.
  apply run_returns_inv in Hrun
    as (-> & m & fp & content & H & Hp & _ & _ & Hf & _ & ->).
  exists content. eexists. eexists.
  split; [exact Hf|]. split; [|split; [apply uploaded_heap|]].
  - unfold uploaded. cbn [trace].
    apply in_or_app. right. apply in_or_app. left.
    right. right. left. reflexivity.
  - rewrite augmented_resource_id, augmented_filesize, augmented_filename,
      augmented_storage_backend. repeat split.
Qed.

Lemma upload_records_what_it_sent_witness :
  let w := Samples.world_with Samples.md_station Samples.song ∅
                              Samples.store_up in
  let run := upload_obj Samples.uploader_s3 Samples.song 1%positive w in
  run = (inr 1%positive, snd run)
  /\ exists content rid m',
       fs w !! Samples.song = Some content
       /\ In (S3PutObject (_bucket Samples.uploader_s3) rid
                [("filename", OsPath.basename Samples.song)] content)
             (trace (snd run))
       /\ heap (snd run) !! 1%positive = Some m'
       /\ m' !! "resource_id" = Some (VStr rid)
       /\ m' !! "filesize" = Some (VInt (Z.of_nat (length content)))
       /\ m' !! "filename" = Some (VStr (OsPath.basename Samples.song))
       /\ m' !! "storage_backend"
          = Some (VStr (_storage_backend Samples.uploader_s3)).
Proof.
  intros w run.
  assert (Hrun : run = (inr 1%positive, snd run))
    by (vm_compute; reflexivity).
  split; [exact Hrun|].
  exact (upload_records_what_it_sent Samples.uploader_s3 Samples.song
           1%positive w 1%positive (snd run) Hrun).
Defined.

(** X10: in a call that returns and whose source file the process may
    unlink, exactly that file is removed, every other file is as it was,
    and the call adds the three store events to the trace and no log
    entry. *)
Theorem successful_upload_removes_only_the_source
        (self : CloudStorageUploader) (audio_file_path : string)
        (metadata : loc) (w : world) (r : loc) (w' : world) :
  upload_obj self audio_file_path metadata w = (inr r, w') ->
  audio_file_path ∉ fs_protected w ->
  fs w' = delete audio_file_path (fs w)
  /\ (forall q, q <> audio_file_path -> fs w' !! q = fs w !! q)
  /\ exists fp content,
       trace w'
       = trace w
           ++ [S3Connect (_api_key self) (_api_key_secret self) (_host self);
               S3GetBucket (_bucket self);
               S3PutObject (_bucket self)
                 (resource_id_of audio_file_path fp (next_unique_id w))
                 [("filename", OsPath.basename audio_file_path)] content].
Proof.
  intros Hrun Hnp.
  apply run_returns_inv in Hrun
    as (-> & m & fp & content & H & Hp & _ & _ & Hf & _ & ->).
  unfold uploaded. cbn [fs trace].
  rewrite bool_decide_eq_false_2 by assumption.
  split; [reflexivity|]. split.
  - intros q Hq. now apply lookup_delete_ne.
  - exists fp, content. now rewrite app_nil_r.
Qed.

Lemma successful_upload_removes_only_the_source_witness :
  let w := Samples.world_with Samples.md_station Samples.song ∅
                              Samples.store_up in
  let run := upload_obj Samples.uploader_s3 Samples.song 1%positive w in
  (run = (inr 1%positive, snd run) /\ Samples.song ∉ fs_protected w)
  /\ fs (snd run) = delete Samples.song (fs w)
  /\ (forall q, q <> Samples.song -> fs (snd run) !! q = fs w !! q)
  /\ exists fp content,
       trace (snd run)
       = trace w
           ++ [S3Connect "AK" "SK" "s3.example.org";
               S3GetBucket "airtime";
               S3PutObject "airtime"
                 (resource_id_of Samples.song fp (next_unique_id w))
                 [("filename", OsPath.basename Samples.song)] content].
Proof.
  intros w run.
  assert (Hrun : run = (inr 1%positive, snd run))
    by (vm_compute; reflexivity).
  assert (Hnp : Samples.song ∉ fs_protected w)
    by (cbn; apply not_elem_of_empty).
  split; [split; assumption|].
  exact (successful_upload_removes_only_the_source Samples.uploader_s3
           Samples.song 1%positive w 1%positive (snd run) Hrun Hnp).
Defined.

(** X11: uploading is not repeatable. After a call that returned and
    removed its source file, a second call for the same path and the same
    dictionary contacts the store again, finds no file, and fails with
    [IOError]; the dictionary keeps the result of the first call. *)
Theorem second_upload_of_same_path_fails
        (self : CloudStorageUploader) (audio_file_path : string)
        (metadata : loc) (w : world) (r : loc) (w' : world) :
  upload_obj self audio_file_path metadata w = (inr r, w') ->
  audio_file_path ∉ fs_protected w ->
  exists w'',
    upload_obj self audio_file_path r w'
    = (inl (IOError audio_file_path), w'')
    /\ heap w'' = heap w'
    /\ trace w''
       = trace w'
           ++ [S3Connect (_api_key self) (_api_key_secret self) (_host self);
               S3GetBucket (_bucket self)].
Proof.
  intros Hrun Hnp.
  apply run_returns_inv in Hrun
    as (-> & m & fp & content & H & Hp & Hc & Hb & Hf & _ & ->).
  set (w' := uploaded self audio_file_path metadata m fp content w).
  assert (H' : heap w' !! metadata
               = Some (augmented m (Z.of_nat (length content))
                         (OsPath.basename audio_file_path)
                         (resource_id_of audio_file_path fp (next_unique_id w))
                         (_storage_backend self)))
    by apply uploaded_heap.
  assert (Hp' : augmented m (Z.of_nat (length content))
                  (OsPath.basename audio_file_path)
                  (resource_id_of audio_file_path fp (next_unique_id w))
                  (_storage_backend self) !! "file_prefix" = Some fp)
    by (rewrite augmented_other by discriminate; exact Hp).
  assert (Hf' : fs w' !! audio_file_path = None).
  { unfold w', uploaded. cbn [fs].
    rewrite bool_decide_eq_false_2 by assumption. apply lookup_delete_eq. }
  eexists.
  split; [exact (run_file_missing self audio_file_path metadata w' _ fp
                   H' Hp' Hc Hb Hf')|].
  cbn. rewrite <- List.app_assoc. split; reflexivity.
Qed.

Lemma second_upload_of_same_path_fails_witness :
  let w := Samples.world_with Samples.md_station Samples.song ∅
                              Samples.store_up in
  let run := upload_obj Samples.uploader_s3 Samples.song 1%positive w in
  (run = (inr 1%positive, snd run) /\ Samples.song ∉ fs_protected w)
  /\ exists w'',
       upload_obj Samples.uploader_s3 Samples.song 1%positive (snd run)
       = (inl (IOError Samples.song), w'')
       /\ heap w'' = heap (snd run)
       /\ trace w''
          = trace (snd run)
              ++ [S3Connect "AK" "SK" "s3.example.org";
                  S3GetBucket "airtime"].
Proof.
  intros w run.
  assert (Hrun : run = (inr 1%positive, snd run))
    by (vm_compute; reflexivity).
  assert (Hnp : Samples.song ∉ fs_protected w)
    by (cbn; apply not_elem_of_empty).
  split; [split; assumption|].
  exact (second_upload_of_same_path_fails Samples.uploader_s3 Samples.song
           1%positive w 1%positive (snd run) Hrun Hnp).
Defined.

(** X12: every call, returning or raising, takes exactly one draw from the
    random source: the UUID is generated before the dictionary is read, so
    a call that fails on a missing [file_prefix] has used one up as well.
    The call leaves the source itself, the store and the set of protected
    paths as they were. *)
Theorem every_call_takes_one_draw
        (self : CloudStorageUploader) (audio_file_path : string)
        (metadata : loc) (w : world) :
  let w' := snd (upload_obj self audio_file_path metadata w) in
  drawn w' = S (drawn w)
  /\ next_unique_id w'
     = Uuid.UUID_str (Uuid.UUID_v4 (entropy w (S (drawn w))))
  /\ entropy w' = entropy w
  /\ s3 w' = s3 w
  /\ fs_protected w' = fs_protected w.
Proof.
  apply (upload_obj_cases self audio_file_path metadata w
           (fun out => drawn (snd out) = S (drawn w)
                       /\ next_unique_id (snd out) = _
                       /\ entropy (snd out) = entropy w
                       /\ s3 (snd out) = s3 w
                       /\ fs_protected (snd out) = fs_protected w));
    intros; repeat split.
Qed.

(** X13: the connection parameters travel from the configuration to the
    store. For an uploader the constructor built for a backend other than
    ["file"], a call whose dictionary holds a [file_prefix] opens the
    connection with the key, secret and host of the configured section, and
    a call that returns has asked for the bucket that section names. *)
Theorem configured_parameters_reach_the_store
        (cfg : config) (self : CloudStorageUploader) (audio_file_path : string)
        (metadata : loc) (w : world) (m : gmap string pyval) (fp : pyval)
        (r : exn + loc) (w' : world) :
  __init__ cfg = inr self ->
  _storage_backend self <> "file" ->
  heap w !! metadata = Some m ->
  m !! "file_prefix" = Some fp ->
  upload_obj self audio_file_path metadata w = (r, w') ->
  exists section host bucket api_key api_key_secret,
    config_get cfg "current_backend" "storage_backend" = inr section
    /\ config_get cfg section "host" = inr host
    /\ config_get cfg section "bucket" = inr bucket
    /\ config_get cfg section "api_key" = inr api_key
    /\ config_get cfg section "api_key_secret" = inr api_key_secret
    /\ (exists rest,
          trace w' = trace w ++ S3Connect api_key api_key_secret host :: rest)
    /\ (forall d, r = inr d -> In (S3GetBucket bucket) (trace w')).
Proof.
  intros Hinit Hne H Hp Hrun.
  destruct (init_reads_section cfg self Hinit Hne)
    as (Hs & Hh & Hb & Hk & Hsec).
  exists (_storage_backend self), (_host self), (_bucket self),
         (_api_key self), (_api_key_secret self).
  repeat (split; [assumption|]). split.
  - exact (run_opens_connection _ _ _ _ _ _ _ _ H Hp Hrun).
  - intros d ->.
    apply run_returns_inv in Hrun
      as (-> & m0 & fp0 & content & _ & _ & _ & _ & _ & _ & ->).
    unfold uploaded. cbn [trace].
    apply in_or_app. right. apply in_or_app. left.
    right. left. reflexivity.
Qed.

Lemma configured_parameters_reach_the_store_witness :
  let w := Samples.world_with Samples.md_station Samples.song ∅
                              Samples.store_up in
  let run := upload_obj Samples.uploader_s3 Samples.song 1%positive w in
  (__init__ Samples.cfg_s3 = inr Samples.uploader_s3
   /\ _storage_backend Samples.uploader_s3 <> "file"
   /\ heap w !! 1%positive = Some Samples.md_station
   /\ Samples.md_station !! "file_prefix" = Some (VStr "stations/42"))
  /\ exists section host bucket api_key api_key_secret,
       config_get Samples.cfg_s3 "current_backend" "storage_backend"
       = inr section
       /\ config_get Samples.cfg_s3 section "host" = inr host
       /\ config_get Samples.cfg_s3 section "bucket" = inr bucket
       /\ config_get Samples.cfg_s3 section "api_key" = inr api_key
       /\ config_get Samples.cfg_s3 section "api_key_secret"
          = inr api_key_secret
       /\ (exists rest,
             trace (snd run)
             = trace w ++ S3Connect api_key api_key_secret host :: rest)
       /\ (forall d, fst run = inr d -> In (S3GetBucket bucket) (trace (snd run))).
Proof.
  intros w run.
  assert (H1 : __init__ Samples.cfg_s3 = inr Samples.uploader_s3)
    by (vm_compute; reflexivity).
  assert (H2 : _storage_backend Samples.uploader_s3 <> "file")
    by (cbn; discriminate).
  assert (H3 : heap w !! 1%positive = Some Samples.md_station)
    by (vm_compute; reflexivity).
  assert (H4 : Samples.md_station !! "file_prefix" = Some (VStr "stations/42"))
    by (vm_compute; reflexivity).
  split; [repeat split; assumption|].
  exact (configured_parameters_reach_the_store Samples.cfg_s3
           Samples.uploader_s3 Samples.song 1%positive w Samples.md_station
           (VStr "stations/42") (fst run) (snd run) H1 H2 H3 H4
           (surjective_pairing run)).
Defined.

(** ** The resource id: size, depth and sharding *)

Lemma rfind_tail_free (c : ascii) (s : string) :
  PyStr.count c (PyStr.str_drop (Z.to_nat (PyStr.rfind c s + 1)) s) = O.
Proof.
  induction s as [|a s IH]; [reflexivity|].
  cbn [PyStr.rfind].
  assert (Hlb := rfind_lower_bound c s).
  destruct (Z.leb_spec 0 (PyStr.rfind c s)) as [Hr|Hr].
  - replace (Z.to_nat (PyStr.rfind c s + 1 + 1))
      with (S (Z.to_nat (PyStr.rfind c s + 1))) by lia.
    exact IH.
  - replace (PyStr.rfind c s) with (-1) in IH by lia.
    cbn in IH.
    assert (Hs : PyStr.count c s = O) by (destruct s; exact IH).
    destruct (Ascii.eqb a c) eqn:E.
    + change (Z.to_nat (0 + 1)) with 1%nat. cbn [PyStr.str_drop]. exact Hs.
    + change (Z.to_nat (-1 + 1)) with 0%nat.
      cbn [PyStr.str_drop PyStr.count]. now rewrite E, Hs.
Qed.

Lemma slice_from_drop (i : Z) (s : string) :
  0 <= i -> PyStr.slice_from i s = PyStr.str_drop (Z.to_nat i) s.
Proof.
  intros Hi. apply PyStrFacts.chars_inj.
  rewrite UuidTextFacts.chars_slice_from by assumption.
  now rewrite PyStrFacts.chars_drop.
Qed.

(** A base name holds no path separator. *)
Lemma basename_no_separator (p : string) :
  PyStr.count "/" (OsPath.basename p) = O.
Proof.
  unfold OsPath.basename.
  rewrite slice_from_drop by (pose proof (rfind_lower_bound "/" p); lia).
  apply rfind_tail_free.
Qed.

Lemma UUID_str_no_separator (u : N) : PyStr.count "/" (Uuid.UUID_str u) = O.
Proof.
  apply (PyStrFacts.count_forall _ Uuid.uuid_char);
    [apply UuidTextFacts.UUID_str_chars|].
  unfold Uuid.uuid_char. cbn. intros H.
  repeat (destruct H as [H|H]; [discriminate H|]). exact H.
Qed.

(** X14: the resource id is 41 characters longer than the text of the
    prefix and the base filename together: two slashes, the two-character
    suffix, the underscore and the 36 characters of the UUID. *)
Theorem resource_id_length
        (audio_file_path : string) (file_prefix : pyval) (raw : N) :
  String.length (resource_id_of audio_file_path file_prefix
                                (Uuid.UUID_str (Uuid.UUID_v4 raw)))
  = (String.length (py_str file_prefix)
     + String.length (OsPath.basename audio_file_path) + 41)%nat.
Proof.
  rewrite resource_id_of_eq, !PyStrFacts.str_length_app.
  rewrite PyStrFacts.last_two_length, PyStrFacts.length_replace.
  rewrite UuidTextFacts.UUID_str_length by apply UuidFacts.UUID_v4_range.
  rewrite <- (OsPathFacts.splitext_app (OsPath.basename audio_file_path)) at 3.
  rewrite PyStrFacts.str_length_app. cbn. lia.
Qed.

(** X15: the object sits exactly two levels below the prefix: the resource
    id has two slashes more than the text of the prefix, because neither
    the file name part nor the UUID holds one. *)
Theorem resource_id_depth
        (audio_file_path : string) (file_prefix : pyval) (raw : N) :
  PyStr.count "/" (resource_id_of audio_file_path file_prefix
                                  (Uuid.UUID_str (Uuid.UUID_v4 raw)))
  = (PyStr.count "/" (py_str file_prefix) + 2)%nat.
Proof.
  set (tok := Uuid.UUID_str (Uuid.UUID_v4 raw)).
  assert (Ht : PyStr.count "/" tok = O) by apply UUID_str_no_separator.
  assert (Hs : PyStr.count "/" (PyStr.slice_from (-2) tok) = O).
  { rewrite (PyStrFacts.last_two_split tok) in Ht.
    rewrite PyStrFacts.count_app in Ht. lia. }
  assert (Hb := basename_no_separator audio_file_path).
  rewrite <- (OsPathFacts.splitext_app (OsPath.basename audio_file_path)) in Hb.
  rewrite PyStrFacts.count_app in Hb.
  rewrite resource_id_of_eq, !PyStrFacts.count_app.
  rewrite PyStrFacts.count_replace_other by discriminate.
  rewrite Ht, Hs. cbn. lia.
Qed.

Lemma UUID_v4_low_byte (raw : N) :
  (Uuid.UUID_v4 raw mod 2 ^ 8 = raw mod 2 ^ 8)%N.
Proof.
  apply N.bits_inj. intros k.
  destruct (N.lt_ge_cases k 8) as [Hk|Hk].
  - rewrite !N.mod_pow2_bits_low by assumption.
    unfold Uuid.UUID_v4.
    rewrite N.lor_spec, N.ldiff_spec, N.lor_spec, N.ldiff_spec.
    rewrite N.mod_pow2_bits_low by lia.
    rewrite !N.shiftl_spec_low by lia.
    cbn. now rewrite !orb_false_r, !andb_true_r.
  - now rewrite !N.mod_pow2_bits_high by assumption.
Qed.

Lemma hex_fixed_two (n : N) :
  Uuid.hex_fixed 2 n
  = String (Uuid.hex_digit ((n / 16) mod 16)%N)
           (String (Uuid.hex_digit (n mod 16)%N) "").
Proof. reflexivity. Qed.

Lemma hex_fixed_two_low_byte (n : N) :
  Uuid.hex_fixed 2 n = Uuid.hex_fixed 2 (n mod 2 ^ 8)%N.
Proof.
  rewrite !hex_fixed_two. change (2 ^ 8)%N with (16 * 16)%N.
  f_equal; [f_equal|f_equal; f_equal].
  - rewrite N.Div0.mod_mul_r, N.mul_comm, N.div_add by lia.
    rewrite (N.div_small (n mod 16) 16) by (apply N.mod_lt; lia).
    now rewrite N.add_0_l, N.Div0.mod_mod.
  - rewrite N.Div0.mod_mul_r, N.mul_comm, N.Div0.mod_add.
    now rewrite N.Div0.mod_mod.
Qed.

Lemma grouped_last_two (l : list ascii) :
  length l = 32%nat ->
  drop 34 (take 8 l ++ PyStr.chars "-" ++ take 4 (drop 8 l)
             ++ PyStr.chars "-" ++ take 4 (drop 12 l) ++ PyStr.chars "-"
             ++ take 4 (drop 16 l) ++ PyStr.chars "-" ++ drop 20 l)
  = drop 30 l.
Proof.
  intros L.
  do 32 (destruct l as [|? l]; [discriminate L|]).
  destruct l; [reflexivity | discriminate L].
Qed.

Lemma UUID_str_last_two (u : N) :
  (u < 2 ^ 128)%N ->
  PyStr.slice_from (-2) (Uuid.UUID_str u) = Uuid.hex_fixed 2 u.
Proof.
  intros Hu. apply PyStrFacts.chars_inj.
  unfold PyStr.slice_from. rewrite PyStrFacts.slice_index_neg by lia.
  rewrite UuidTextFacts.UUID_str_length by assumption.
  rewrite PyStrFacts.chars_drop, UuidTextFacts.chars_UUID_str. cbv zeta.
  rewrite UuidFacts.format_032x_128 by assumption.
  change (36 - Z.to_nat (- -2))%nat with 34%nat.
  rewrite grouped_last_two
    by (rewrite PyStrFacts.length_chars; apply UuidFacts.length_hex_fixed).
  change (Uuid.hex_fixed 32 u)
    with (Uuid.hex_fixed 30 (u / 16 / 16) +:+ Uuid.hex_fixed 2 u).
  rewrite PyStrFacts.chars_app.
  replace 30%nat
    with (length (PyStr.chars (Uuid.hex_fixed 30 (u / 16 / 16))))
    by (rewrite PyStrFacts.length_chars; apply UuidFacts.length_hex_fixed).
  apply drop_app_length.
Qed.

Lemma startswith_app4 (a b c d rest : string) :
  PyStr.startswith (a +:+ b +:+ c +:+ d +:+ rest) (a +:+ b +:+ c +:+ d)
  = true.
Proof.
  replace (a +:+ b +:+ c +:+ d +:+ rest)
    with ((a +:+ b +:+ c +:+ d) +:+ rest)
    by (now rewrite !PyStrFacts.str_app_assoc).
  apply PyStrFacts.startswith_app.
Qed.

(** X16: the sharding suffix is the low byte of the 128-bit draw written as
    two lowercase hexadecimal digits, so the objects of one prefix spread
    over at most 256 directories, chosen by bits the UUID version and
    variant marks do not touch. *)
Theorem sharding_suffix_is_low_byte
        (audio_file_path : string) (file_prefix : pyval) (raw : N) :
  let token := Uuid.UUID_str (Uuid.UUID_v4 raw) in
  PyStr.slice_from (-2) token = Uuid.hex_fixed 2 (raw mod 256)
  /\ PyStr.startswith
       (resource_id_of audio_file_path file_prefix token)
       (py_str file_prefix +:+ "/" +:+ Uuid.hex_fixed 2 (raw mod 256) +:+ "/")
     = true.
Proof.
  intros token.
  assert (Hs : PyStr.slice_from (-2) token = Uuid.hex_fixed 2 (raw mod 256)).
  { unfold token. rewrite UUID_str_last_two by apply UuidFacts.UUID_v4_range.
    rewrite hex_fixed_two_low_byte, UUID_v4_low_byte. reflexivity. }
  split; [exact Hs|].
  rewrite resource_id_of_eq, Hs. apply startswith_app4.
Qed.

(** ** The resource id: the file name part *)

Lemma rfind_at (c : ascii) (s : string) :
  0 <= PyStr.rfind c s ->
  exists t,
    PyStr.str_drop (Z.to_nat (PyStr.rfind c s)) s = String c t
    /\ PyStr.count c t = O.
Proof.
  induction s as [|a s IH]; cbn [PyStr.rfind]; [lia|].
  assert (Hlb := rfind_lower_bound c s).
  assert (Htail := rfind_tail_free c s).
  destruct (Z.leb_spec 0 (PyStr.rfind c s)) as [Hr|Hr].
  - intros _. destruct (IH Hr) as (t & Ht & Hc). exists t.
    replace (Z.to_nat (PyStr.rfind c s + 1))
      with (S (Z.to_nat (PyStr.rfind c s))) by lia.
    split; assumption.
  - replace (PyStr.rfind c s) with (-1) in Htail by lia.
    assert (Hs : PyStr.count c s = O) by (destruct s; exact Htail).
    destruct (Ascii.eqb a c) eqn:E; [|lia].
    intros _. apply Ascii.eqb_eq in E. subst a. now exists s.
Qed.

Lemma replace_absent (old new : ascii) (s : string) :
  PyStr.count old s = O -> PyStr.replace old new s = s.
Proof.
  induction s as [|a s IH]; [reflexivity|]. cbn.
  destruct (Ascii.eqb a old); [discriminate|].
  intros H. now rewrite IH.
Qed.

(** X17: the extension that ends the resource id is either empty or a dot
    followed by text that holds no further dot and no slash. *)
Theorem extension_is_empty_or_one_dotted_part (audio_file_path : string) :
  let extension := snd (OsPath.splitext (OsPath.basename audio_file_path)) in
  extension = ""
  \/ exists t,
       extension = String "." t
       /\ PyStr.count "." t = O
       /\ PyStr.count "/" t = O.
Proof.
  intros extension.
  assert (Hsep : PyStr.count "/" extension = O).
  { assert (Hb := basename_no_separator audio_file_path).
    rewrite <- (OsPathFacts.splitext_app (OsPath.basename audio_file_path))
      in Hb.
    rewrite PyStrFacts.count_app in Hb. unfold extension. lia. }
  destruct (splitext_extension_cases (OsPath.basename audio_file_path))
    as [He|He]; [now left|].
  fold extension in He. unfold extension_from_last_dot in He.
  destruct (Z.leb_spec 0 (PyStr.rfind "." (OsPath.basename audio_file_path)))
    as [Hr|Hr]; [|now left].
  right. rewrite slice_from_drop in He by assumption.
  destruct (rfind_at "." _ Hr) as (t & Ht & Hc).
  exists t. rewrite Ht in He. split; [exact He|]. split; [exact Hc|].
  rewrite He in Hsep. cbn in Hsep. exact Hsep.
Qed.

(** X18: a file whose base name holds no space keeps its name in the
    resource id: stem and extension appear as they are, around the
    underscore and the UUID. *)
Theorem spaceless_name_is_carried_unchanged
        (audio_file_path : string) (file_prefix : pyval) (unique_id : string) :
  PyStr.count " " (OsPath.basename audio_file_path) = O ->
  resource_id_of audio_file_path file_prefix unique_id
  = py_str file_prefix +:+ "/" +:+ PyStr.slice_from (-2) unique_id +:+ "/"
      +:+ fst (OsPath.splitext (OsPath.basename audio_file_path))
      +:+ "_" +:+ unique_id
      +:+ snd (OsPath.splitext (OsPath.basename audio_file_path)).
Proof.
  intros H. rewrite resource_id_of_eq.
  rewrite <- (OsPathFacts.splitext_app (OsPath.basename audio_file_path)) in H.
  rewrite PyStrFacts.count_app in H.
  rewrite replace_absent by lia. reflexivity.
Qed.

Lemma spaceless_name_is_carried_unchanged_witness :
  let p := "/srv/organize/track01.ogg" in
  let tok := "01234567-89ab-4def-8123-456789abcdef" in
  PyStr.count " " (OsPath.basename p) = O
  /\ resource_id_of p (VStr "stations/42") tok
     = "stations/42" +:+ "/" +:+ PyStr.slice_from (-2) tok +:+ "/"
         +:+ fst (OsPath.splitext (OsPath.basename p))
         +:+ "_" +:+ tok +:+ snd (OsPath.splitext (OsPath.basename p)).
Proof.
  intros p tok.
  assert (H : PyStr.count " " (OsPath.basename p) = O)
    by (vm_compute; reflexivity).
  split; [exact H|].
  exact (spaceless_name_is_carried_unchanged p (VStr "stations/42") tok H).
Defined.
